(** * spectral_pipeline: a shallow embedding of the numerical core

    The Python sources embedded here are
    - [math_core/statistics.py], [math_core/cal_objective.py],
    - [evaluation/metrics.py], [control/cal_controller.py],
    - [representation/raw.py], [representation/lie_group.py],
    - [data/base.py], [data/synthetic.py] and [pipeline.py],
    each under the module path that its imports give it.  The libraries
    outside the repository ([scipy.fft], [pywt]) and the draws of the
    random generator are parameters.

    Conventions.
    - A [float64] is an extended real [fval]: a real number, one of the two
      infinities, or NaN.  Arithmetic on finite values is exact (rounding,
      overflow and the sign of zero are not modelled); the IEEE rules for
      the special values are written out, since NumPy divides by zero
      without raising.
    - A one-dimensional [ndarray] is a [list]; a two-dimensional one is a
      list of rows.
    - A Python exception is the [Raise] case of [result]. *)

From Stdlib Require Import Reals Lra Lia ZArith.
From Stdlib Require Import Sorted.
From stdpp Require Import gmap strings pretty list fin_maps.

Local Open Scope string_scope.
Local Open Scope list_scope.

(** ** Exceptions and results *)

Inductive exn : Type :=
  | ValueError (msg : string)
  | NameError (name : string)
  | TypeError (msg : string)
  | Exception (msg : string).

Inductive result (A : Type) : Type :=
  | Ok (a : A)
  | Raise (e : exn).
Arguments Ok {A} a.
Arguments Raise {A} e.

#[global] Instance result_ret : MRet result := fun _ a => Ok a.
#[global] Instance result_bind : MBind result := fun _ _ f m =>
  match m with
  | Ok a => f a
  | Raise e => Raise e
  end.

(** ** float64 as extended reals *)

Inductive fval : Type :=
  | Fin (r : R)
  | PInf
  | NInf
  | NaN.

Definition Rsign_fval (r : R) : fval :=
  if Rlt_dec 0 r then PInf else NInf.

Definition fneg (x : fval) : fval :=
  match x with
  | Fin a => Fin (- a)
  | PInf => NInf
  | NInf => PInf
  | NaN => NaN
  end.

Definition fadd (x y : fval) : fval :=
  match x, y with
  | NaN, _ | _, NaN => NaN
  | Fin a, Fin b => Fin (a + b)
  | PInf, NInf | NInf, PInf => NaN
  | PInf, _ | _, PInf => PInf
  | NInf, _ | _, NInf => NInf
  end.

Definition fsub (x y : fval) : fval := fadd x (fneg y).

Definition fmul (x y : fval) : fval :=
  match x, y with
  | NaN, _ | _, NaN => NaN
  | Fin a, Fin b => Fin (a * b)
  | Fin a, PInf | PInf, Fin a =>
      if Req_dec_T a 0 then NaN else Rsign_fval a
  | Fin a, NInf | NInf, Fin a =>
      if Req_dec_T a 0 then NaN else fneg (Rsign_fval a)
  | PInf, PInf | NInf, NInf => PInf
  | PInf, NInf | NInf, PInf => NInf
  end.

(** NumPy's true division: a zero divisor gives an infinity or NaN (and a
    warning), never an exception. *)
Definition fdiv (x y : fval) : fval :=
  match x, y with
  | NaN, _ | _, NaN => NaN
  | Fin a, Fin b =>
      if Req_dec_T b 0
      then (if Req_dec_T a 0 then NaN else Rsign_fval a)
      else Fin (a / b)
  | Fin _, (PInf | NInf) => Fin 0
  | PInf, Fin b => if Rlt_dec b 0 then NInf else PInf
  | NInf, Fin b => if Rlt_dec b 0 then PInf else NInf
  | (PInf | NInf), (PInf | NInf) => NaN
  end.

Definition fabs (x : fval) : fval :=
  match x with
  | Fin a => Fin (Rabs a)
  | PInf | NInf => PInf
  | NaN => NaN
  end.

Definition fsqrt (x : fval) : fval :=
  match x with
  | Fin a => if Rlt_dec a 0 then NaN else Fin (sqrt a)
  | PInf => PInf
  | NInf | NaN => NaN
  end.

Definition flog (x : fval) : fval :=
  match x with
  | Fin a =>
      if Rlt_dec a 0 then NaN
      else if Req_dec_T a 0 then NInf else Fin (ln a)
  | PInf => PInf
  | NInf | NaN => NaN
  end.

(** [x <= y]; every comparison with NaN is false. *)
Definition fle (x y : fval) : bool :=
  match x, y with
  | NaN, _ | _, NaN => false
  | Fin a, Fin b => if Rle_dec a b then true else false
  | NInf, _ | _, PInf => true
  | _, _ => false
  end.

(** [np.maximum]: the larger argument, NaN if either is NaN. *)
Definition fmaximum (x y : fval) : fval :=
  match x, y with
  | NaN, _ | _, NaN => NaN
  | _, _ => if fle x y then y else x
  end.

(** [np.sign]. *)
Definition fsign (x : fval) : fval :=
  match x with
  | Fin a =>
      if Rlt_dec 0 a then Fin 1
      else if Rlt_dec a 0 then Fin (-1) else Fin 0
  | PInf => Fin 1
  | NInf => Fin (-1)
  | NaN => NaN
  end.

Definition of_nat (n : nat) : fval := Fin (INR n).
Definition of_Z (n : Z) : fval := Fin (IZR n).

(** ** The NumPy operations the sources use *)

Definition broadcast_error : exn :=
  ValueError "operands could not be broadcast together".

(** Elementwise binary operation on one-dimensional arrays, with NumPy's
    broadcasting of a length-one operand. *)
Definition np_binop (f : fval -> fval -> fval) (a b : list fval)
  : result (list fval) :=
  if (length a =? length b)%nat then Ok (zip_with f a b)
  else match a, b with
       | [x], _ => Ok (map (f x) b)
       | _, [y] => Ok (map (fun x => f x y) a)
       | _, _ => Raise broadcast_error
       end.

Definition np_scale (c : fval) (a : list fval) : list fval := map (fmul c) a.

Definition np_sum (a : list fval) : fval := foldr fadd (Fin 0) a.

(** [np.mean]; on an empty array this is 0/0 = NaN. *)
Definition np_mean (a : list fval) : fval :=
  fdiv (np_sum a) (of_nat (length a)).

(** [np.max] raises on an empty array and propagates NaN. *)
Definition np_max (a : list fval) : result fval :=
  match a with
  | [] => Raise (ValueError "zero-size array to reduction operation maximum which has no identity")
  | x :: l => Ok (foldl fmaximum x l)
  end.

(** [np.diff]: [out[i] = a[i+1] - a[i]]. *)
Definition np_diff (a : list fval) : list fval :=
  zip_with fsub (tail a) a.

(** [np.linalg.norm] of a vector. *)
Definition linalg_norm (a : list fval) : fval :=
  fsqrt (np_sum (map (fun x => fmul x x) a)).

(** Python's [a[:-1]] and [a[1:]]. *)
Definition slice_init (a : list fval) : list fval := removelast a.
Definition slice_tail (a : list fval) : list fval := tail a.

(** ** Module namespaces

    A name that a function body reads and does not bind locally is looked
    up, when the body runs, in the globals of the module that defines the
    function; a missing name raises [NameError].  Only the float constants
    of each module are recorded. *)

Definition load_global (globals : gmap string fval) (name : string)
  : result fval :=
  match globals !! name with
  | Some v => Ok v
  | None => Raise (NameError name)
  end.

(** ** math_core/statistics.py *)

Module statistics.

Definition A_CONSTANT : fval := Fin 2.5.
Definition B_CONSTANT : fval := Fin 3.0.
Definition C_GUE : fval := Fin 0.60338.

Definition globals : gmap string fval :=
  <["A_CONSTANT" := A_CONSTANT]>
    (<["B_CONSTANT" := B_CONSTANT]> (<["C_GUE" := C_GUE]> ∅)).

Definition cosmic_harmony_statistic (normalized_gaps : list fval)
  : result fval :=
  if (length normalized_gaps <? 3)%nat
  then Raise (ValueError "Need at least 3 gaps for S_N computation")
  else
    products ← np_binop fmul (slice_init normalized_gaps)
                             (slice_tail normalized_gaps);
    Ok (np_mean products).

Definition convergence_bound (N : Z) (A B : fval) : fval :=
  if (N <? 3)%Z then PInf
  else fadd (fdiv A (fsqrt (of_Z N)))
            (fdiv (fmul B (flog (of_Z N))) (of_Z N)).

Record BoundValidation : Type := {
  S_N : fval;
  deviation : fval;
  bound : fval;
  bound_satisfied : bool;
  safety_margin : option fval
}.

Definition validate_convergence (normalized_gaps : list fval)
  : result BoundValidation :=
  S_N ← cosmic_harmony_statistic normalized_gaps;
  let N := Z.of_nat (length normalized_gaps) in
  let bound := convergence_bound N A_CONSTANT B_CONSTANT in
  C_GUE ← load_global globals "C_GUE";
  let deviation := fabs (fsub S_N C_GUE) in
  Ok {| S_N := S_N;
        deviation := deviation;
        bound := bound;
        bound_satisfied := fle deviation bound;
        safety_margin :=
          if fle deviation bound then Some (fsub bound deviation) else None |}.

End statistics.

(** ** math_core/cal_objective.py

    The module imports [numpy] and [typing.Callable] and defines two
    functions; it binds no float constant. *)

Module cal_objective.

Definition globals : gmap string fval := ∅.

Definition cal_objective (potential_grad_norm spectral_deviation mu : fval)
  : fval :=
  fadd potential_grad_norm (fmul mu (fmul spectral_deviation spectral_deviation)).

Definition cal_gradient (alpha : list fval)
    (potential_grad_fn spectral_grad_fn : list fval -> result (list fval))
    (S_N mu : fval) : result (list fval) :=
  grad_potential ← potential_grad_fn alpha;
  grad_spectral ← spectral_grad_fn alpha;
  C_GUE ← load_global globals "C_GUE";
  np_binop fadd grad_potential
    (np_scale (fmul (fmul mu (Fin 2)) (fsub S_N C_GUE)) grad_spectral).

End cal_objective.

(** What the docstring of [cal_gradient] describes: the same expression
    with [C_GUE] read from [math_core/statistics.py]. *)
Definition cal_gradient_documented (alpha : list fval)
    (potential_grad_fn spectral_grad_fn : list fval -> result (list fval))
    (S_N mu : fval) : result (list fval) :=
  grad_potential ← potential_grad_fn alpha;
  grad_spectral ← spectral_grad_fn alpha;
  np_binop fadd grad_potential
    (np_scale (fmul (fmul mu (Fin 2)) (fsub S_N statistics.C_GUE)) grad_spectral).

(** ** control/cal_controller.py *)

Module cal_controller.

Record CALController : Type := {
  learning_rate : fval;
  momentum : fval;
  projection_fn : option (list fval -> result (list fval));
  velocity : option (list fval)
}.

(** [__init__]; the defaults are [learning_rate = 0.01], [momentum = 0.9]
    and no projection. *)
Definition init (learning_rate momentum : fval)
    (projection_fn : option (list fval -> result (list fval))) : CALController :=
  {| learning_rate := learning_rate; momentum := momentum;
     projection_fn := projection_fn; velocity := None |}.

Definition init_default : CALController := init (Fin 0.01) (Fin 0.9) None.

Definition set_velocity (v : list fval) (self : CALController) : CALController :=
  {| learning_rate := learning_rate self; momentum := momentum self;
     projection_fn := projection_fn self; velocity := Some v |}.

(** [np.zeros(alpha_shape)] for a one-dimensional shape. *)
Definition initialize (alpha_shape : nat) (self : CALController) : CALController :=
  set_velocity (replicate alpha_shape (Fin 0)) self.

Definition compute_update (alpha gradient : list fval) (self : CALController)
  : result (list fval) * CALController :=
  let self := match velocity self with
              | None => initialize (length alpha) self
              | Some _ => self
              end in
  let v := default [] (velocity self) in
  match np_binop fadd (np_scale (momentum self) v)
                      (np_scale (learning_rate self) gradient) with
  | Raise e => (Raise e, self)
  | Ok v' =>
      let self := set_velocity v' self in
      (alpha_new ← np_binop fsub alpha v';
       match projection_fn self with
       | Some project => project alpha_new
       | None => Ok alpha_new
       end, self)
  end.

Definition compute_gradient (self : CALController) (alpha : list fval)
    (potential_grad_fn spectral_grad_fn : list fval -> result (list fval))
    (S_N mu : fval) : result (list fval) :=
  cal_objective.cal_gradient alpha potential_grad_fn spectral_grad_fn S_N mu.

End cal_controller.

(** ** evaluation/metrics.py *)

(** A [Dict[str, float]] in insertion order. *)
Definition record := list (string * fval).

Fixpoint dict_get (d : record) (key : string) : option fval :=
  match d with
  | [] => None
  | (k, v) :: d' => if decide (k = key) then Some v else dict_get d' key
  end.

(** [d[key] = value]: overwrite in place, or append a new key. *)
Fixpoint dict_set (d : record) (key : string) (value : fval) : record :=
  match d with
  | [] => [(key, value)]
  | (k, v) :: d' =>
      if decide (k = key) then (k, value) :: d'
      else (k, v) :: dict_set d' key value
  end.

(** [{**d, **e}]. *)
Definition dict_merge (d e : record) : record :=
  foldl (fun acc kv => dict_set acc kv.1 kv.2) d e.

Module metrics.

(** [from ..math_core.statistics import C_GUE, cosmic_harmony_statistic]. *)
Definition globals : gmap string fval := <["C_GUE" := statistics.C_GUE]> ∅.

Definition compute_deviation (normalized_gaps : list fval) : result fval :=
  S_N ← statistics.cosmic_harmony_statistic normalized_gaps;
  C_GUE ← load_global globals "C_GUE";
  Ok (fabs (fsub S_N C_GUE)).

Definition compute_reconstruction_error (original reconstructed : list fval)
  : result fval :=
  difference ← np_binop fsub original reconstructed;
  Ok (fdiv (linalg_norm difference) (linalg_norm original)).

(** [alpha_sequence] is [np.array(alpha_history)]: a stack of parameter
    vectors, one row each; [len] counts the rows and the empty stack is the
    empty array. *)
Definition row_diff (alpha_sequence : list (list fval)) : list (list fval) :=
  zip_with (zip_with fsub) (tail alpha_sequence) alpha_sequence.

Definition compute_parameter_stability (alpha_sequence : list (list fval))
  : result record :=
  if (length alpha_sequence <? 2)%nat
  then Ok [("mean_change", Fin 0); ("max_change", Fin 0)]
  else
    let changes := row_diff alpha_sequence in
    let norms := map linalg_norm changes in
    max_norm ← np_max norms;
    Ok [("mean_change", np_mean norms);
        ("max_change", max_norm);
        ("final_change",
           if (0 <? length norms)%nat then List.last norms (Fin 0) else Fin 0)].

Definition evaluate_pipeline (original_sequence processed_sequence : list fval)
    (alpha_history : list (list fval)) : result record :=
  deviation ← compute_deviation processed_sequence;
  reconstruction_error ←
    compute_reconstruction_error original_sequence processed_sequence;
  stability ← compute_parameter_stability alpha_history;
  Ok (dict_merge [("deviation_from_GUE", deviation);
                  ("reconstruction_error", reconstruction_error)]
                 stability).

End metrics.

(** ** representation/base.py and representation/raw.py *)

(** The capability set {transform, inverse_transform}; the transformed
    array may be of another dtype than the sequence. *)
Record Representation : Type := {
  transformed : Type;
  transform : list fval -> result transformed;
  inverse_transform : transformed -> result (list fval)
}.

Definition RawRepresentation : Representation :=
  {| transformed := list fval;
     transform := fun sequence => Ok sequence;
     inverse_transform := fun transformed => Ok transformed |}.

(** ** representation/lie_group.py: sparse_optimization *)

(** A [complex128] is a pair (real part, imaginary part). *)
Definition cval : Type := fval * fval.

Inductive ndarray : Type :=
  | RealArray (a : list fval)
  | ComplexArray (a : list cval).

Definition is_inf (x : fval) : bool :=
  match x with
  | PInf | NInf => true
  | _ => false
  end.

Definition cmul (z w : cval) : cval :=
  (fsub (fmul z.1 w.1) (fmul z.2 w.2), fadd (fmul z.1 w.2) (fmul z.2 w.1)).

(** [np.abs] of a complex number ([hypot]: infinite as soon as one part is). *)
Definition cabs (z : cval) : fval :=
  if is_inf z.1 || is_inf z.2 then PInf
  else fsqrt (fadd (fmul z.1 z.1) (fmul z.2 z.2)).

Definition Rarctan2 (y x : R) : R :=
  if Rlt_dec 0 x then atan (y / x)
  else if Rlt_dec x 0
       then (if Rle_dec 0 y then atan (y / x) + PI else atan (y / x) - PI)
       else if Rlt_dec 0 y then PI / 2
            else if Rlt_dec y 0 then - (PI / 2) else 0.

Definition farctan2 (y x : fval) : fval :=
  match y, x with
  | NaN, _ | _, NaN => NaN
  | Fin b, Fin a => Fin (Rarctan2 b a)
  | Fin _, PInf => Fin 0
  | Fin b, NInf => if Rle_dec 0 b then Fin PI else Fin (- PI)
  | PInf, Fin _ => Fin (PI / 2)
  | NInf, Fin _ => Fin (- (PI / 2))
  | PInf, PInf => Fin (PI / 4)
  | NInf, PInf => Fin (- (PI / 4))
  | PInf, NInf => Fin (3 * PI / 4)
  | NInf, NInf => Fin (- (3 * PI / 4))
  end.

(** [np.angle]. *)
Definition cangle (z : cval) : fval := farctan2 z.2 z.1.

Definition fexp (x : fval) : fval :=
  match x with
  | Fin a => Fin (exp a)
  | PInf => PInf
  | NInf => Fin 0
  | NaN => NaN
  end.

Definition fcos (x : fval) : fval :=
  match x with Fin a => Fin (cos a) | _ => NaN end.

Definition fsin (x : fval) : fval :=
  match x with Fin a => Fin (sin a) | _ => NaN end.

(** [np.exp] of a complex number. *)
Definition cexp (z : cval) : cval :=
  (fmul (fexp z.1) (fcos z.2), fmul (fexp z.1) (fsin z.2)).

Definition of_real (x : fval) : cval := (x, Fin 0).
Definition imaginary_unit : cval := (Fin 0, Fin 1).

Module lie_group.

Record LieGroupSpectralCompression : Type := {
  basis_type : string;
  sparsity_param : fval
}.

Definition sparse_optimization (self : LieGroupSpectralCompression)
    (coefficients : ndarray) : result ndarray :=
  match coefficients with
  | ComplexArray c =>
      largest ← np_max (map cabs c);
      let threshold := fmul (sparsity_param self) largest in
      let magnitude := map cabs c in
      let phase :=
        map (fun z => cexp (cmul imaginary_unit (of_real (cangle z)))) c in
      let thresholded_magnitude :=
        map (fun m => fmaximum (fsub m threshold) (Fin 0)) magnitude in
      Ok (ComplexArray
            (zip_with (fun m p => cmul (of_real m) p) thresholded_magnitude phase))
  | RealArray c =>
      largest ← np_max (map fabs c);
      let threshold := fmul (sparsity_param self) largest in
      Ok (RealArray
            (zip_with fmul (map fsign c)
               (map (fun x => fmaximum (fsub (fabs x) threshold) (Fin 0)) c)))
  end.

End lie_group.

(** ** data/base.py *)

(** [load] is abstract: each source supplies what it returns or raises. *)
Record DataSource : Type := {
  load : result (list fval)
}.

Definition normalize_gaps (sequence : list fval) : list fval :=
  let gaps := np_diff sequence in
  map (fun g => fdiv g (np_mean gaps)) gaps.

(** ** pipeline.py *)

(** [np.array] of a list of vectors: the rows must agree in length. *)
Definition np_array (rows : list (list fval)) : result (list (list fval)) :=
  match rows with
  | [] => Ok []
  | r :: rs =>
      if forallb (fun r' => (length r' =? length r)%nat) rs then Ok rows
      else Raise (ValueError "setting an array element with a sequence")
  end.

Module pipeline.

Import cal_controller.

Definition gradient_fn : Type := list fval -> result (list fval).

Record SpectralPipeline : Type := {
  data_source : DataSource;
  representation : Representation;
  controller : CALController;
  original_sequence : option (list fval);
  processed_sequence : option (list fval);
  alpha_history : list (list fval)
}.

(** [__init__]: a missing representation is the raw one, a missing
    controller the default one; the pipeline starts unrun. *)
Definition init (data_source : DataSource)
    (representation : option Representation)
    (controller : option CALController) : SpectralPipeline :=
  {| data_source := data_source;
     representation := default RawRepresentation representation;
     controller := default init_default controller;
     original_sequence := None;
     processed_sequence := None;
     alpha_history := [] |}.

Definition set_original_sequence (v : list fval) (self : SpectralPipeline) :=
  {| data_source := data_source self; representation := representation self;
     controller := controller self; original_sequence := Some v;
     processed_sequence := processed_sequence self;
     alpha_history := alpha_history self |}.

Definition set_processed_sequence (v : list fval) (self : SpectralPipeline) :=
  {| data_source := data_source self; representation := representation self;
     controller := controller self; original_sequence := original_sequence self;
     processed_sequence := Some v;
     alpha_history := alpha_history self |}.

Definition set_controller (c : CALController) (self : SpectralPipeline) :=
  {| data_source := data_source self; representation := representation self;
     controller := c; original_sequence := original_sequence self;
     processed_sequence := processed_sequence self;
     alpha_history := alpha_history self |}.

Definition append_alpha (alpha : list fval) (self : SpectralPipeline) :=
  {| data_source := data_source self; representation := representation self;
     controller := controller self; original_sequence := original_sequence self;
     processed_sequence := processed_sequence self;
     alpha_history := alpha_history self ++ [alpha] |}.

(** The three keys [run] tracks, each with an empty list. *)
Definition empty_history : gmap string (list fval) :=
  <["deviation" := []]>
    (<["reconstruction_error" := []]> (<["parameter_change" := []]> ∅)).

(** [for key, value in current_metrics.items():
       if key in metrics_history: metrics_history[key].append(value)] *)
Definition store_metrics (metrics_history : gmap string (list fval))
    (current_metrics : record) : gmap string (list fval) :=
  foldl (fun h kv =>
           match h !! kv.1 with
           | Some values => <[kv.1 := values ++ [kv.2]]> h
           | None => h
           end)
        metrics_history current_metrics.

(** One pass through the body of the control loop. *)
Definition control_step (normalized_gaps : list fval)
    (potential_grad_fn spectral_grad_fn : option gradient_fn)
    (alpha : list fval) (metrics_history : gmap string (list fval))
    (self : SpectralPipeline)
  : result (list fval * gmap string (list fval)) * SpectralPipeline :=
  match processed_sequence self with
  | None => (Raise (TypeError "object of type 'NoneType' has no len()"), self)
  | Some processed =>
      match (history ← np_array (alpha_history self);
             metrics.evaluate_pipeline normalized_gaps processed history) with
      | Raise e => (Raise e, self)
      | Ok current_metrics =>
          let metrics_history := store_metrics metrics_history current_metrics in
          match potential_grad_fn, spectral_grad_fn with
          | Some potential_grad, Some spectral_grad =>
              match (S_N ← statistics.cosmic_harmony_statistic processed;
                     compute_gradient (controller self) alpha
                       potential_grad spectral_grad S_N (Fin 1.0)) with
              | Raise e => (Raise e, self)
              | Ok gradient =>
                  let (updated, c) :=
                    compute_update alpha gradient (controller self) in
                  let self := set_controller c self in
                  match updated with
                  | Raise e => (Raise e, self)
                  | Ok alpha' =>
                      (Ok (alpha', metrics_history), append_alpha alpha' self)
                  end
              end
          | _, _ => (Ok (alpha, metrics_history), self)
          end
      end
  end.

Fixpoint control_loop (iterations : nat) (normalized_gaps : list fval)
    (potential_grad_fn spectral_grad_fn : option gradient_fn)
    (alpha : list fval) (metrics_history : gmap string (list fval))
    (self : SpectralPipeline)
  : result (gmap string (list fval)) * SpectralPipeline :=
  match iterations with
  | O => (Ok metrics_history, self)
  | S iterations' =>
      match control_step normalized_gaps potential_grad_fn spectral_grad_fn
              alpha metrics_history self with
      | (Raise e, self') => (Raise e, self')
      | (Ok (alpha', metrics_history'), self') =>
          control_loop iterations' normalized_gaps
            potential_grad_fn spectral_grad_fn alpha' metrics_history' self'
      end
  end.

(** [range(n_iterations)] is empty for a non-positive count. *)
Definition run (n_iterations : Z)
    (potential_grad_fn spectral_grad_fn : option gradient_fn)
    (self : SpectralPipeline)
  : result (gmap string (list fval)) * SpectralPipeline :=
  match load (data_source self) with
  | Raise e => (Raise e, self)
  | Ok sequence =>
      let self := set_original_sequence sequence self in
      let normalized_gaps := normalize_gaps sequence in
      match (t ← transform (representation self) normalized_gaps;
             inverse_transform (representation self) t) with
      | Raise e => (Raise e, self)
      | Ok processed =>
          let self := set_processed_sequence processed self in
          let alpha := [Fin 1.0] in
          let self := set_controller (initialize 1 (controller self)) self in
          control_loop (Z.to_nat n_iterations) normalized_gaps
            potential_grad_fn spectral_grad_fn alpha empty_history self
      end
  end.

Definition get_final_metrics (self : SpectralPipeline) : result record :=
  match original_sequence self, processed_sequence self with
  | Some original, Some processed =>
      history ← np_array (alpha_history self);
      metrics.evaluate_pipeline (normalize_gaps original) processed history
  | _, _ => Raise (ValueError "Pipeline must be run first")
  end.

End pipeline.

(** ** representation/lie_group.py: transform and inverse_transform

    [scipy.fft] and [pywt] are libraries outside the repository: the
    transforms take them as a parameter. *)

Definition nd_length (a : ndarray) : nat :=
  match a with
  | RealArray x => length x
  | ComplexArray z => length z
  end.

(** [a[start : start + count]]. *)
Definition nd_slice (start count : nat) (a : ndarray) : ndarray :=
  match a with
  | RealArray x => RealArray (take count (drop start x))
  | ComplexArray z => ComplexArray (take count (drop start z))
  end.

Definition nd_zeros_like (a : ndarray) : ndarray :=
  match a with
  | RealArray x => RealArray (replicate (length x) (Fin 0))
  | ComplexArray z => ComplexArray (replicate (length z) (Fin 0, Fin 0))
  end.

(** [np.real]. *)
Definition nd_real (a : ndarray) : list fval :=
  match a with
  | RealArray x => x
  | ComplexArray z => map fst z
  end.

(** [np.concatenate]; the result is complex as soon as one part is. *)
Definition nd_to_complex (a : ndarray) : list cval :=
  match a with
  | RealArray x => map of_real x
  | ComplexArray z => z
  end.

Definition nd_is_real (a : ndarray) : bool :=
  match a with
  | RealArray _ => true
  | ComplexArray _ => false
  end.

Definition nd_concatenate (parts : list ndarray) : ndarray :=
  if forallb nd_is_real parts
  then RealArray (concat (map nd_real parts))
  else ComplexArray (concat (map nd_to_complex parts)).

Record SignalLibraries : Type := {
  (** [scipy.fft.fft] and [scipy.fft.ifft] *)
  fft : ndarray -> result (list cval);
  ifft : ndarray -> result (list cval);
  (** [pywt.wavedec(_, 'db4', level=4)] and [pywt.waverec(_, 'db4')] *)
  wavedec : ndarray -> result (list ndarray);
  waverec : list ndarray -> result ndarray
}.

Module lie_group_transform.

Import lie_group.

Definition unknown_basis (self : LieGroupSpectralCompression) : exn :=
  ValueError ("Unknown basis type: " +:+ basis_type self).

Definition transform (lib : SignalLibraries) (self : LieGroupSpectralCompression)
    (sequence : list fval) : result ndarray :=
  if decide (basis_type self = "dft") then
    z ← fft lib (RealArray sequence); Ok (ComplexArray z)
  else if decide (basis_type self = "wavelet") then
    coeffs ← wavedec lib (RealArray sequence);
    Ok (nd_concatenate coeffs)
  else Raise (unknown_basis self).

(** The loop that cuts [transformed] into consecutive slices of the given
    lengths. *)
Fixpoint cut_slices (transformed : ndarray) (start : nat) (lengths : list nat)
  : list ndarray :=
  match lengths with
  | [] => []
  | slice_len :: lengths' =>
      nd_slice start slice_len transformed
      :: cut_slices transformed (start + slice_len) lengths'
  end.

Definition inverse_transform (lib : SignalLibraries)
    (self : LieGroupSpectralCompression) (transformed : ndarray)
  : result (list fval) :=
  reconstruction ←
    (if decide (basis_type self = "dft") then
       z ← ifft lib transformed; Ok (map fst z)
     else if decide (basis_type self = "wavelet") then
       coeff_slices ← wavedec lib (nd_zeros_like transformed);
       let coeffs := cut_slices transformed 0 (map nd_length coeff_slices) in
       r ← waverec lib coeffs; Ok (nd_real r)
     else Raise (unknown_basis self));
  Ok (take (nd_length transformed) reconstruction).

End lie_group_transform.

(** ** data/synthetic.py *)

(** [np.cumsum]. *)
Fixpoint np_cumsum_from (total : fval) (a : list fval) : list fval :=
  match a with
  | [] => []
  | x :: a' => fadd total x :: np_cumsum_from (fadd total x) a'
  end.

Definition np_cumsum (a : list fval) : list fval := np_cumsum_from (Fin 0) a.

(** [np.linspace(start, stop, num)] with both end points: a negative [num]
    is an error; the samples are [i * step + start] with
    [step = (stop - start) / (num - 1)], or [i * (stop - start) + start]
    when there is no interval to divide, and the last of several samples
    is set to [stop]. *)
Definition np_linspace (start stop : fval) (num : Z) : result (list fval) :=
  if (num <? 0)%Z
  then Raise (ValueError ("Number of samples, " +:+ pretty num
                          +:+ ", must be non-negative."))
  else
    let n := Z.to_nat num in
    let delta := fsub stop start in
    let div := (n - 1)%nat in
    let y :=
      if (0 <? div)%nat
      then map (fun i => fadd (fmul (of_nat i) (fdiv delta (of_nat div))) start)
               (seq 0 n)
      else map (fun i => fadd (fmul (of_nat i) delta) start) (seq 0 n) in
    Ok (if (1 <? n)%nat then take (n - 1) y ++ [stop] else y).

Module synthetic.

Record SyntheticSequence : Type := {
  n_points : Z;
  sequence_type : string
}.

(** [load]; [gaps] is the array that the random generator returns for the
    "gue_like" and "poisson" types. *)
Definition load (self : SyntheticSequence) (gaps : list fval)
  : result (list fval) :=
  if decide (sequence_type self = "gue_like") then
    Ok (map (fun x => fadd x (Fin 1000)) (np_cumsum gaps))
  else if decide (sequence_type self = "poisson") then
    Ok (map (fun x => fadd x (Fin 1000)) (np_cumsum gaps))
  else if decide (sequence_type self = "deterministic") then
    np_linspace (Fin 1000) (fadd (Fin 1000) (of_Z (n_points self))) (n_points self)
  else Raise (ValueError ("Unknown sequence type: " +:+ sequence_type self)).

End synthetic.

(** ** data/base.py: BootstrapResampler *)

Module bootstrap.

Record BootstrapResampler : Type := {
  block_size : option nat
}.

(** [self.block_size or int(np.sqrt(n))]: zero counts as missing. *)
Definition effective_block_size (self : BootstrapResampler) (n : nat) : nat :=
  match block_size self with
  | Some (S b) => S b
  | _ => Nat.sqrt n
  end.

(** [int(np.ceil(n / block_size))] for a positive block size. *)
Definition n_blocks (n block_size : nat) : nat :=
  (n + block_size - 1) / block_size.

(** One bootstrap sample from the block start indices that the random
    generator returned. *)
Definition bootstrap_sample (sequence : list fval) (block_size : nat)
    (block_indices : list nat) : list fval :=
  take (length sequence)
       (concat (map (fun idx => take block_size (drop idx sequence))
                    block_indices)).

(** [resample]; [draws] holds, for each of the samples, the block indices
    drawn for it.  [np.random.randint(0, n - block_size + 1, n_blocks)]
    returns the empty array for [n_blocks = 0] before it looks at its
    bounds; for a positive count an empty range [high <= 0] is a
    [ValueError]. *)
Definition resample (self : BootstrapResampler) (sequence : list fval)
    (draws : list (list nat)) : result (list (list fval)) :=
  let n := length sequence in
  let block_size := effective_block_size self n in
  if decide (draws = []) then Ok []
  else if (block_size =? 0)%nat then Raise (Exception "ZeroDivisionError")
  else if (0 <? n_blocks n block_size)%nat && (n <? block_size)%nat
       then Raise (ValueError "low >= high")
       else Ok (map (bootstrap_sample sequence block_size) draws).

End bootstrap.

(** ** The properties in the words of the specification *)

(** S_N as the specification writes it: the mean of [γ_k · γ_{k+1}] over
    the positions [k] that have a successor. *)
Definition successor_product_mean (gaps : list fval) : fval :=
  let positions := seq 0 (length gaps - 1) in
  fdiv (np_sum (map (fun k => fmul (nth k gaps NaN) (nth (S k) gaps NaN))
                    positions))
       (of_nat (length positions)).

(** [x <= y] on float64 as a proposition. *)
Definition fval_le (x y : fval) : Prop :=
  match x, y with
  | NaN, _ | _, NaN => False
  | Fin a, Fin b => (a <= b)%R
  | NInf, _ | _, PInf => True
  | _, _ => False
  end.

(** The Euclidean norm of a vector of real numbers. *)
Definition l2_norm (x : list R) : R :=
  sqrt (fold_right Rplus 0%R (map (fun c => (c * c)%R) x)).

Definition vector_sub (x y : list R) : list R := zip_with Rminus x y.

Definition Rmean (x : list R) : R :=
  (fold_right Rplus 0%R x / INR (length x))%R.

(** The norms of the differences of consecutive parameter vectors, by
    position in the history. *)
Definition successive_change_norms (history : list (list R)) : list R :=
  map (fun k => l2_norm (vector_sub (nth (S k) history []) (nth k history [])))
      (seq 0 (length history - 1)).


(** The embedding of arrays of real numbers into float64 arrays. *)
Definition finite (x : list R) : list fval := map Fin x.
Definition finite_rows (x : list (list R)) : list (list fval) := map finite x.

(** The state of the metrics history after [k] passes of the control
    loop, as [store_metrics] leaves it: this is the loop invariant. *)
Definition history_after (k : nat) (h : gmap string (list fval)) : Prop :=
  h !! "deviation" = Some []
  /\ h !! "parameter_change" = Some []
  /\ (exists values, h !! "reconstruction_error" = Some values
                     /\ length values = k)
  /\ h !! "deviation_from_GUE" = None
  /\ h !! "mean_change" = None
  /\ h !! "max_change" = None
  /\ h !! "final_change" = None.

(** The keys of a record that [evaluate_pipeline] returns. *)
Definition metrics_record_shape (m : record) : Prop :=
  exists d e mean largest,
    m = [("deviation_from_GUE", d); ("reconstruction_error", e);
         ("mean_change", mean); ("max_change", largest)]
    \/ exists final,
         m = [("deviation_from_GUE", d); ("reconstruction_error", e);
              ("mean_change", mean); ("max_change", largest);
              ("final_change", final)].

(** Two deterministic data sources: equally spaced points. *)
Definition four_points : DataSource :=
  {| load := Ok (finite [1000%R; 1001%R; 1002%R; 1003%R]) |}.

Definition three_points : DataSource :=
  {| load := Ok (finite [1000%R; 1001%R; 1002%R]) |}.

(** The momentum rule on vectors of real numbers: the new velocity and
    the new parameters. *)
Definition momentum_velocity (eta m : R) (v g : list R) : list R :=
  zip_with (fun x y => (m * x + eta * y)%R) v g.

Definition descent_step (a v : list R) : list R := vector_sub a v.

(** Consecutive differences of a sequence of real numbers. *)
Definition Rdiff (x : list R) : list R := zip_with Rminus (tail x) x.

(** [n] equally spaced points [a, a + h, a + 2h, ...]. *)
Definition progression (a h : R) (n : nat) : list R :=
  map (fun i => (a + INR i * h)%R) (seq 0 n).

(** The sign of a real number, as [np.sign] gives it. *)
Definition Rsign (r : R) : R :=
  if Rlt_dec 0 r then 1%R else if Rlt_dec r 0 then (-1)%R else 0%R.

(** Soft thresholding of a real number by [t]. *)
Definition soft_threshold (t c : R) : R :=
  (Rsign c * Rmax (Rabs c - t) 0)%R.

(** A stand-in for the signal libraries, whose [ifft] inverts its [fft]:
    the trivial transform that only changes the dtype. *)
Definition trivial_libraries : SignalLibraries :=
  {| fft := fun a => Ok (nd_to_complex a);
     ifft := fun a => Ok (nd_to_complex a);
     wavedec := fun a => Ok [a];
     waverec := fun parts => Ok (nd_concatenate parts) |}.

(** * Properties *)

(** ** Arithmetic on finite values *)

Lemma fdiv_fin (a b : R) : b <> 0%R -> fdiv (Fin a) (Fin b) = Fin (a / b).
Proof.
  intros Hb. unfold fdiv. destruct (Req_dec_T b 0); [contradiction | reflexivity].
Qed.

Lemma fsqrt_fin (a : R) : (0 <= a)%R -> fsqrt (Fin a) = Fin (sqrt a).
Proof.
  intros Ha. unfold fsqrt. destruct (Rlt_dec a 0); [lra | reflexivity].
Qed.

Lemma flog_fin (a : R) : (0 < a)%R -> flog (Fin a) = Fin (ln a).
Proof.
  intros Ha. unfold flog.
  destruct (Rlt_dec a 0); [lra |]. destruct (Req_dec_T a 0); [lra | reflexivity].
Qed.

Lemma fle_spec (x y : fval) : fle x y = true <-> fval_le x y.
Proof.
  destruct x, y; simpl; try (split; [discriminate | tauto]); try tauto.
  destruct (Rle_dec r r0); split; auto; discriminate.
Qed.

Lemma load_global_statistics_C_GUE :
  load_global statistics.globals "C_GUE" = Ok statistics.C_GUE.
Proof. reflexivity. Qed.

Lemma load_global_metrics_C_GUE :
  load_global metrics.globals "C_GUE" = Ok statistics.C_GUE.
Proof. reflexivity. Qed.

Lemma load_global_cal_objective_C_GUE :
  load_global cal_objective.globals "C_GUE" = Raise (NameError "C_GUE").
Proof. reflexivity. Qed.

(** ** Slices and products *)

Lemma length_slice_init (a : list fval) : length (slice_init a) = (length a - 1)%nat.
Proof.
  unfold slice_init. induction a as [|x [|y a] IH]; simpl in *; auto.
  rewrite IH. lia.
Qed.

Lemma length_slice_tail (a : list fval) : length (slice_tail a) = (length a - 1)%nat.
Proof. destruct a; simpl; lia. Qed.

Lemma np_binop_same_length f (a b : list fval) :
  length a = length b -> np_binop f a b = Ok (zip_with f a b).
Proof.
  intros H. unfold np_binop. rewrite H, Nat.eqb_refl. reflexivity.
Qed.

Lemma successor_products_by_index (f : fval -> fval -> fval) (a : list fval) :
  zip_with f (slice_init a) (slice_tail a)
  = map (fun k => f (nth k a NaN) (nth (S k) a NaN)) (seq 0 (length a - 1)).
Proof.
  unfold slice_init, slice_tail.
  induction a as [|x [|y a] IH]; [reflexivity | reflexivity |].
  change (removelast (x :: y :: a)) with (x :: removelast (y :: a)).
  cbn [tail zip_with length]. cbn [tail] in IH.
  replace (S (S (length a)) - 1)%nat with (S (length a)) by lia.
  cbn [seq map]. f_equal.
  rewrite IH. cbn [length].
  replace (S (length a) - 1)%nat with (length a) by lia.
  rewrite <- seq_shift, map_map. reflexivity.
Qed.

(** ** cosmic_harmony_statistic *)

Lemma cosmic_harmony_statistic_short (gaps : list fval) :
  (length gaps < 3)%nat ->
  statistics.cosmic_harmony_statistic gaps
  = Raise (ValueError "Need at least 3 gaps for S_N computation").
Proof.
  intros H. unfold statistics.cosmic_harmony_statistic.
  apply Nat.ltb_lt in H. rewrite H. reflexivity.
Qed.

Lemma cosmic_harmony_statistic_long (gaps : list fval) :
  (3 <= length gaps)%nat ->
  statistics.cosmic_harmony_statistic gaps
  = Ok (np_mean (zip_with fmul (slice_init gaps) (slice_tail gaps))).
Proof.
  intros H. unfold statistics.cosmic_harmony_statistic.
  destruct (Nat.ltb_spec (length gaps) 3) as [Hlt|_]; [lia |].
  rewrite np_binop_same_length
    by (rewrite length_slice_init, length_slice_tail; reflexivity).
  reflexivity.
Qed.

Lemma np_sum_ones (n : nat) : np_sum (replicate n (Fin 1)) = Fin (INR n).
Proof.
  induction n as [|n IH]; [reflexivity |].
  cbn [replicate]. unfold np_sum in *. cbn [foldr]. rewrite IH.
  cbn [fadd]. f_equal. rewrite S_INR. lra.
Qed.

Lemma all_ones_replicate (a : list fval) :
  (forall g, In g a -> g = Fin 1) -> a = replicate (length a) (Fin 1).
Proof.
  induction a as [|x a IH]; intros H; [reflexivity |].
  cbn [length replicate]. rewrite (H x) by (left; reflexivity).
  f_equal. apply IH. intros g Hg. apply H. right. exact Hg.
Qed.

Lemma slice_init_replicate (n : nat) (x : fval) :
  slice_init (replicate (S n) x) = replicate n x.
Proof.
  unfold slice_init. induction n as [|n IH]; [reflexivity |].
  change (replicate (S (S n)) x) with (x :: replicate (S n) x).
  change (removelast (x :: replicate (S n) x))
    with (x :: removelast (replicate (S n) x)).
  rewrite IH. reflexivity.
Qed.

Lemma zip_fmul_ones (n : nat) :
  zip_with fmul (replicate n (Fin 1)) (replicate n (Fin 1)) = replicate n (Fin 1).
Proof.
  induction n as [|n IH]; [reflexivity |].
  cbn [replicate zip_with]. rewrite IH. cbn [fmul]. do 2 f_equal. lra.
Qed.

Lemma cosmic_harmony_statistic_ones (n : nat) :
  (3 <= n)%nat ->
  statistics.cosmic_harmony_statistic (replicate n (Fin 1)) = Ok (Fin 1).
Proof.
  intros H. rewrite cosmic_harmony_statistic_long by (rewrite length_replicate; lia).
  destruct n as [|n]; [lia |].
  rewrite slice_init_replicate. cbn [slice_tail replicate tail].
  rewrite zip_fmul_ones. unfold np_mean, of_nat.
  rewrite np_sum_ones, length_replicate.
  assert (Hn : INR n <> 0%R) by (apply not_0_INR; lia).
  rewrite fdiv_fin by exact Hn. do 2 f_equal. field. exact Hn.
Qed.

(** C6.  Fewer than three gaps raise the insufficient-data [ValueError];
    three or more give the mean of the products of each gap with its
    successor; a constant array of gaps equal to 1.0 gives exactly 1.0. *)
Theorem cosmic_harmony_statistic_spec (gaps : list fval) :
  ((length gaps < 3)%nat ->
     statistics.cosmic_harmony_statistic gaps
     = Raise (ValueError "Need at least 3 gaps for S_N computation"))
  /\ ((3 <= length gaps)%nat ->
        statistics.cosmic_harmony_statistic gaps
        = Ok (successor_product_mean gaps))
  /\ ((3 <= length gaps)%nat -> (forall g, In g gaps -> g = Fin 1) ->
        statistics.cosmic_harmony_statistic gaps = Ok (Fin 1)).
Proof.
  split; [apply cosmic_harmony_statistic_short |].
  split.
  - intros H. rewrite cosmic_harmony_statistic_long by exact H.
    rewrite successor_products_by_index.
    unfold successor_product_mean, np_mean. rewrite length_map. reflexivity.
  - intros H Hones. rewrite (all_ones_replicate gaps Hones).
    apply cosmic_harmony_statistic_ones. exact H.
Qed.

Lemma cosmic_harmony_statistic_spec_witness :
  statistics.cosmic_harmony_statistic [Fin 1; Fin 1]
  = Raise (ValueError "Need at least 3 gaps for S_N computation")
  /\ statistics.cosmic_harmony_statistic [Fin 1; Fin 1; Fin 1]
     = Ok (successor_product_mean [Fin 1; Fin 1; Fin 1])
  /\ statistics.cosmic_harmony_statistic [Fin 1; Fin 1; Fin 1] = Ok (Fin 1).
Proof.
  split; [| split].
  - apply (proj1 (cosmic_harmony_statistic_spec [Fin 1; Fin 1])). simpl. lia.
  - apply (proj1 (proj2 (cosmic_harmony_statistic_spec [Fin 1; Fin 1; Fin 1]))).
    simpl. lia.
  - apply (proj2 (proj2 (cosmic_harmony_statistic_spec [Fin 1; Fin 1; Fin 1]))).
    + simpl. lia.
    + intros g Hg. simpl in Hg. intuition congruence.
Defined.

(** ** convergence_bound *)

Lemma convergence_bound_small (N : Z) (A B : fval) :
  (N < 3)%Z -> statistics.convergence_bound N A B = PInf.
Proof.
  intros H. unfold statistics.convergence_bound.
  apply Z.ltb_lt in H. rewrite H. reflexivity.
Qed.

Lemma convergence_bound_large (N : Z) (a b : R) :
  (3 <= N)%Z ->
  statistics.convergence_bound N (Fin a) (Fin b)
  = Fin (a / sqrt (IZR N) + b * ln (IZR N) / IZR N).
Proof.
  intros H. unfold statistics.convergence_bound, of_Z.
  destruct (Z.ltb_spec N 3) as [Hlt|_]; [lia |].
  assert (HN : (0 < IZR N)%R) by (apply IZR_lt; lia).
  rewrite fsqrt_fin by lra.
  rewrite fdiv_fin by (pose proof (sqrt_lt_R0 _ HN); lra).
  rewrite flog_fin by exact HN.
  cbn [fmul]. rewrite fdiv_fin by lra. reflexivity.
Qed.

(** Bounds on [exp] by repeated squaring of [1 + x/4096 <= exp (x/4096)]. *)

Lemma exp_square_lower (a b y y' : R) :
  (a <= exp y)%R -> (0 <= a)%R -> (b <= a * a)%R -> y' = (2 * y)%R ->
  (b <= exp y')%R.
Proof.
  intros Ha H0 Hb ->. replace (2 * y)%R with (y + y)%R by lra.
  rewrite exp_plus. nra.
Qed.

Lemma exp_lower_at_minus_6_89 : (0.001 < exp ((-6.89)))%R.
Proof.
  assert (H0 : (0.99831787109375 <= exp (-6.89 / 4096))%R)
    by (pose proof (exp_ineq1_le (-6.89 / 4096)); lra).
  assert (H1 : (0.996638571745157 <= exp (-6.89 / 2048))%R)
    by (apply (exp_square_lower _ _ _ _ H0); lra).
  assert (H2 : (0.993288442690226 <= exp (-6.89 / 1024))%R)
    by (apply (exp_square_lower _ _ _ _ H1); lra).
  assert (H3 : (0.986621930381974 <= exp (-6.89 / 512))%R)
    by (apply (exp_square_lower _ _ _ _ H2); lra).
  assert (H4 : (0.973422833510652 <= exp (-6.89 / 256))%R)
    by (apply (exp_square_lower _ _ _ _ H3); lra).
  assert (H5 : (0.947552012799906 <= exp (-6.89 / 128))%R)
    by (apply (exp_square_lower _ _ _ _ H4); lra).
  assert (H6 : (0.897854816961153 <= exp (-6.89 / 64))%R)
    by (apply (exp_square_lower _ _ _ _ H5); lra).
  assert (H7 : (0.806143272340345 <= exp (-6.89 / 32))%R)
    by (apply (exp_square_lower _ _ _ _ H6); lra).
  assert (H8 : (0.649866975539599 <= exp (-6.89 / 16))%R)
    by (apply (exp_square_lower _ _ _ _ H7); lra).
  assert (H9 : (0.422327085896985 <= exp (-6.89 / 8))%R)
    by (apply (exp_square_lower _ _ _ _ H8); lra).
  assert (H10 : (0.178360167482239 <= exp (-6.89 / 4))%R)
    by (apply (exp_square_lower _ _ _ _ H9); lra).
  assert (H11 : (0.031812349344292 <= exp (-6.89 / 2))%R)
    by (apply (exp_square_lower _ _ _ _ H10); lra).
  assert (H12 : (0.001012025570803 <= exp (-6.89))%R)
    by (apply (exp_square_lower _ _ _ _ H11); lra).
  lra.
Qed.

Lemma exp_lower_at_6_92 : (1000 < exp (6.92))%R.
Proof.
  assert (H0 : (1.001689453125 <= exp (6.92 / 4096))%R)
    by (pose proof (exp_ineq1_le (6.92 / 4096)); lra).
  assert (H1 : (1.003381760501861 <= exp (6.92 / 2048))%R)
    by (apply (exp_square_lower _ _ _ _ H0); lra).
  assert (H2 : (1.006774957307813 <= exp (6.92 / 1024))%R)
    by (apply (exp_square_lower _ _ _ _ H1); lra).
  assert (H3 : (1.013595814662148 <= exp (6.92 / 512))%R)
    by (apply (exp_square_lower _ _ _ _ H2); lra).
  assert (H4 : (1.027376475500623 <= exp (6.92 / 256))%R)
    by (apply (exp_square_lower _ _ _ _ H3); lra).
  assert (H5 : (1.055502422412082 <= exp (6.92 / 128))%R)
    by (apply (exp_square_lower _ _ _ _ H4); lra).
  assert (H6 : (1.114085363717773 <= exp (6.92 / 64))%R)
    by (apply (exp_square_lower _ _ _ _ H5); lra).
  assert (H7 : (1.241186197650162 <= exp (6.92 / 32))%R)
    by (apply (exp_square_lower _ _ _ _ H6); lra).
  assert (H8 : (1.540543177237267 <= exp (6.92 / 16))%R)
    by (apply (exp_square_lower _ _ _ _ H7); lra).
  assert (H9 : (2.373273280932293 <= exp (6.92 / 8))%R)
    by (apply (exp_square_lower _ _ _ _ H8); lra).
  assert (H10 : (5.63242606598713 <= exp (6.92 / 4))%R)
    by (apply (exp_square_lower _ _ _ _ H9); lra).
  assert (H11 : (31.724223388811257 <= exp (6.92 / 2))%R)
    by (apply (exp_square_lower _ _ _ _ H10); lra).
  assert (H12 : (1006.426349623199195 <= exp (6.92))%R)
    by (apply (exp_square_lower _ _ _ _ H11); lra).
  lra.
Qed.

Lemma ln_1000_bounds : (6.89 < ln 1000 < 6.92)%R.
Proof.
  assert (H1000 : exp (ln 1000) = 1000%R) by (apply exp_ln; lra).
  split; apply exp_lt_inv; rewrite H1000.
  - pose proof exp_lower_at_minus_6_89 as Hm.
    pose proof (exp_pos 6.89) as Hp.
    assert (Hone : (exp 6.89 * exp (-6.89) = 1)%R).
    { rewrite <- exp_plus. replace (6.89 + -6.89)%R with 0%R by lra. apply exp_0. }
    nra.
  - apply exp_lower_at_6_92.
Qed.

Lemma sqrt_1000_bounds : (31.6227 < sqrt 1000 < 31.6228)%R.
Proof.
  split.
  - rewrite <- (sqrt_square 31.6227) by lra. apply sqrt_lt_1_alt. lra.
  - rewrite <- (sqrt_square 31.6228) by lra. apply sqrt_lt_1_alt. lra.
Qed.

Lemma convergence_bound_1000_value :
  (0.0997 < 2.5 / sqrt 1000 + 3.0 * ln 1000 / 1000 < 0.0999)%R.
Proof.
  pose proof ln_1000_bounds as [Hl1 Hl2].
  pose proof sqrt_1000_bounds as [Hs1 Hs2].
  assert (Hq : (0.079056 < 2.5 / sqrt 1000 < 0.079058)%R).
  { split.
    - apply Rmult_lt_reg_r with (sqrt 1000); [lra |].
      unfold Rdiv. rewrite Rmult_assoc, Rinv_l by lra. lra.
    - apply Rmult_lt_reg_r with (sqrt 1000); [lra |].
      unfold Rdiv. rewrite Rmult_assoc, Rinv_l by lra. lra. }
  lra.
Qed.

(** C7.  Below three samples the bound is plus infinity for every [A] and
    [B]; from three samples on it is [A/sqrt N + B ln N / N]; at N = 1000
    with the default constants this is 2.5/sqrt 1000 + 3 ln 1000 / 1000,
    which is 0.0998 to within 0.0001. *)
Theorem convergence_bound_spec :
  (forall (N : Z) (A B : fval),
      (N < 3)%Z -> statistics.convergence_bound N A B = PInf)
  /\ (forall (N : Z) (a b : R),
        (3 <= N)%Z ->
        statistics.convergence_bound N (Fin a) (Fin b)
        = Fin (a / sqrt (IZR N) + b * ln (IZR N) / IZR N))
  /\ (exists v : R,
        statistics.convergence_bound 1000 (Fin 2.5) (Fin 3.0) = Fin v
        /\ v = (2.5 / sqrt 1000 + 3.0 * ln 1000 / 1000)%R
        /\ (Rabs (v - 0.0998) < 0.0001)%R).
Proof.
  split; [exact convergence_bound_small |].
  split; [exact convergence_bound_large |].
  eexists. split; [apply convergence_bound_large; lia |].
  split; [reflexivity |].
  pose proof convergence_bound_1000_value as [H1 H2].
  apply Rabs_def1; lra.
Qed.

Lemma convergence_bound_spec_witness :
  statistics.convergence_bound 2 (Fin 2.5) (Fin 3.0) = PInf
  /\ statistics.convergence_bound 1000 (Fin 2.5) (Fin 3.0)
     = Fin (2.5 / sqrt (IZR 1000) + 3.0 * ln (IZR 1000) / IZR 1000).
Proof.
  split.
  - apply (proj1 convergence_bound_spec). lia.
  - apply (proj1 (proj2 convergence_bound_spec)). lia.
Defined.

(** The value at N = 1000 is not 0.079: it is more than 0.02 above. *)
Lemma convergence_bound_1000_is_not_0_079 :
  exists v : R,
    statistics.convergence_bound 1000 statistics.A_CONSTANT statistics.B_CONSTANT
    = Fin v
    /\ ~ (Rabs (v - 0.079) <= 0.02)%R.
Proof.
  eexists. split; [apply convergence_bound_large; lia |].
  pose proof convergence_bound_1000_value as [H1 H2].
  intros Habs. unfold Rabs in Habs.
  destruct (Rcase_abs _) in Habs; lra.
Qed.

(** ** validate_convergence *)

Lemma fabs_not_NInf (x : fval) : fabs x <> NInf.
Proof. destruct x; discriminate. Qed.

Lemma margin_when_satisfied (d : fval) (b : R) :
  fle (fabs d) (Fin b) = true ->
  exists m : R, fsub (Fin b) (fabs d) = Fin m /\ (0 <= m)%R.
Proof.
  destruct d as [r| | |]; simpl; try discriminate.
  destruct (Rle_dec (Rabs r) b) as [Hle|]; [| discriminate].
  intros _. eexists. split; [reflexivity | lra].
Qed.

(** C8.  On at least three gaps [validate_convergence] returns a record
    whose deviation is [|S_N - C_GUE|], whose flag holds exactly when the
    deviation is at most the bound, and whose margin is [bound - deviation]
    (a non-negative number) when the flag holds and is absent otherwise. *)
Theorem validate_convergence_spec (gaps : list fval) :
  (3 <= length gaps)%nat ->
  exists (s : fval) (r : statistics.BoundValidation),
    statistics.cosmic_harmony_statistic gaps = Ok s
    /\ statistics.validate_convergence gaps = Ok r
    /\ statistics.S_N r = s
    /\ statistics.deviation r = fabs (fsub s statistics.C_GUE)
    /\ statistics.bound r
       = statistics.convergence_bound (Z.of_nat (length gaps))
           statistics.A_CONSTANT statistics.B_CONSTANT
    /\ (statistics.bound_satisfied r = true
        <-> fval_le (statistics.deviation r) (statistics.bound r))
    /\ (statistics.bound_satisfied r = true ->
        exists m : R,
          statistics.safety_margin r = Some (Fin m)
          /\ fsub (statistics.bound r) (statistics.deviation r) = Fin m
          /\ (0 <= m)%R)
    /\ (statistics.bound_satisfied r = false ->
        statistics.safety_margin r = None).
Proof.
  intros H. unfold statistics.validate_convergence.
  rewrite cosmic_harmony_statistic_long by exact H.
  eexists. eexists. split; [reflexivity |].
  cbn [mbind result_bind]. rewrite load_global_statistics_C_GUE.
  split; [reflexivity |]. cbn.
  split; [reflexivity |]. split; [reflexivity |]. split; [reflexivity |].
  split; [apply fle_spec |].
  unfold statistics.A_CONSTANT, statistics.B_CONSTANT.
  rewrite convergence_bound_large by lia.
  split.
  - intros Hsat. rewrite Hsat.
    destruct (margin_when_satisfied _ _ Hsat) as (m & Hm & Hpos).
    exists m. rewrite Hm. auto.
  - intros Hsat. rewrite Hsat. reflexivity.
Qed.

Lemma validate_convergence_spec_witness :
  exists (s : fval) (r : statistics.BoundValidation),
    statistics.cosmic_harmony_statistic [Fin 1; Fin 1; Fin 1] = Ok s
    /\ statistics.validate_convergence [Fin 1; Fin 1; Fin 1] = Ok r
    /\ statistics.S_N r = s
    /\ statistics.deviation r = fabs (fsub s statistics.C_GUE)
    /\ statistics.bound r
       = statistics.convergence_bound (Z.of_nat (length [Fin 1; Fin 1; Fin 1]))
           statistics.A_CONSTANT statistics.B_CONSTANT
    /\ (statistics.bound_satisfied r = true
        <-> fval_le (statistics.deviation r) (statistics.bound r))
    /\ (statistics.bound_satisfied r = true ->
        exists m : R,
          statistics.safety_margin r = Some (Fin m)
          /\ fsub (statistics.bound r) (statistics.deviation r) = Fin m
          /\ (0 <= m)%R)
    /\ (statistics.bound_satisfied r = false ->
        statistics.safety_margin r = None).
Proof.
  apply (validate_convergence_spec [Fin 1; Fin 1; Fin 1]). simpl. lia.
Defined.

(** ** cal_gradient and compute_gradient *)

Lemma cal_gradient_never_returns alpha potential_grad_fn spectral_grad_fn S_N mu g :
  cal_objective.cal_gradient alpha potential_grad_fn spectral_grad_fn S_N mu
  <> Ok g.
Proof.
  unfold cal_objective.cal_gradient.
  destruct (potential_grad_fn alpha); [| discriminate].
  destruct (spectral_grad_fn alpha); discriminate.
Qed.

(** C1.  Once both gradient functions have returned, [compute_gradient]
    reads the name [C_GUE], which [math_core/cal_objective.py] never binds,
    and raises [NameError] instead of returning the documented combination. *)
Theorem compute_gradient_raises_NameError
    (self : cal_controller.CALController) (alpha : list fval)
    (potential_grad_fn spectral_grad_fn : list fval -> result (list fval))
    (S_N mu : fval) (grad_potential grad_spectral : list fval) :
  potential_grad_fn alpha = Ok grad_potential ->
  spectral_grad_fn alpha = Ok grad_spectral ->
  cal_controller.compute_gradient self alpha
    potential_grad_fn spectral_grad_fn S_N mu
  = Raise (NameError "C_GUE").
Proof.
  intros Hp Hs.
  unfold cal_controller.compute_gradient, cal_objective.cal_gradient.
  rewrite Hp, Hs. reflexivity.
Qed.

Lemma compute_gradient_raises_NameError_witness :
  cal_controller.compute_gradient cal_controller.init_default [Fin 1]
    (fun a => Ok a) (fun _ => Ok [Fin 1]) (Fin 1) (Fin 1)
  = Raise (NameError "C_GUE").
Proof.
  apply (compute_gradient_raises_NameError cal_controller.init_default [Fin 1]
           (fun a => Ok a) (fun _ => Ok [Fin 1]) (Fin 1) (Fin 1) [Fin 1] [Fin 1]);
    reflexivity.
Defined.

(** On the same input the documented expression has a value. *)
Lemma cal_gradient_documented_value :
  cal_gradient_documented [Fin 1] (fun a => Ok a) (fun _ => Ok [Fin 1])
    (Fin 1) (Fin 1)
  = Ok [Fin (1 + 1 * 2 * (1 - 0.60338) * 1)].
Proof. reflexivity. Qed.

(** ** Norms of finite vectors *)

Lemma sum_squares_nonneg (x : list R) :
  (0 <= fold_right Rplus 0 (map (fun c => c * c) x))%R.
Proof.
  induction x as [|c x IH]; simpl; [lra |]. nra.
Qed.

Lemma np_sum_finite (x : list R) :
  np_sum (finite x) = Fin (fold_right Rplus 0%R x).
Proof.
  unfold np_sum, finite. induction x as [|c x IH]; [reflexivity |].
  cbn [map foldr fold_right]. rewrite IH. reflexivity.
Qed.

Lemma squares_finite (x : list R) :
  map (fun c => fmul c c) (finite x) = finite (map (fun c => (c * c)%R) x).
Proof.
  unfold finite. rewrite !map_map. reflexivity.
Qed.

Lemma linalg_norm_finite (x : list R) :
  linalg_norm (finite x) = Fin (l2_norm x).
Proof.
  unfold linalg_norm, l2_norm.
  rewrite squares_finite, np_sum_finite.
  apply fsqrt_fin, sum_squares_nonneg.
Qed.

Lemma zip_fsub_finite (x y : list R) :
  zip_with fsub (finite x) (finite y) = finite (vector_sub x y).
Proof.
  unfold finite, vector_sub. revert y.
  induction x as [|a x IH]; intros [|b y]; try reflexivity.
  cbn [map zip_with]. rewrite IH. reflexivity.
Qed.

Lemma l2_norm_nonneg (x : list R) : (0 <= l2_norm x)%R.
Proof. apply sqrt_pos. Qed.

Lemma l2_norm_zero_iff (x : list R) :
  l2_norm x = 0%R <-> Forall (fun c => c = 0%R) x.
Proof.
  unfold l2_norm. split.
  - intros H. apply sqrt_eq_0 in H; [| apply sum_squares_nonneg].
    induction x as [|c x IH]; [constructor |].
    simpl in H. pose proof (sum_squares_nonneg x) as Hx.
    assert (Hc : (c * c = 0)%R) by nra.
    constructor; [nra |]. apply IH. nra.
  - intros H. replace (fold_right Rplus 0%R (map (fun c => (c * c)%R) x)) with 0%R;
      [apply sqrt_0 |].
    induction H as [|c x Hc _ IH]; simpl; [reflexivity |].
    rewrite <- IH, Hc. lra.
Qed.

Lemma vector_sub_from_zero_norm (x y : list R) :
  length x = length y -> Forall (fun c => c = 0%R) x ->
  l2_norm (vector_sub x y) = l2_norm y.
Proof.
  intros Hlen Hx. unfold l2_norm. f_equal. revert y Hlen.
  induction Hx as [|c x Hc _ IH]; intros [|d y] Hlen; try discriminate;
    [reflexivity |].
  cbn [vector_sub zip_with map fold_right]. injection Hlen as Hlen.
  unfold vector_sub in IH. rewrite IH by exact Hlen. subst c. lra.
Qed.

(** ** compute_reconstruction_error *)

Lemma compute_reconstruction_error_finite (original reconstructed : list R) :
  length original = length reconstructed ->
  metrics.compute_reconstruction_error (finite original) (finite reconstructed)
  = Ok (fdiv (Fin (l2_norm (vector_sub original reconstructed)))
             (Fin (l2_norm original))).
Proof.
  intros Hlen. unfold metrics.compute_reconstruction_error.
  rewrite np_binop_same_length by (unfold finite; rewrite !length_map; exact Hlen).
  cbn [mbind result_bind].
  rewrite zip_fsub_finite, !linalg_norm_finite. reflexivity.
Qed.

(** A sum of squares is a non-negative number, plus infinity or NaN,
    whatever the entries. *)
Lemma sum_squares_range (a : list fval) :
  (exists s : R, (0 <= s)%R /\ np_sum (map (fun x => fmul x x) a) = Fin s)
  \/ np_sum (map (fun x => fmul x x) a) = PInf
  \/ np_sum (map (fun x => fmul x x) a) = NaN.
Proof.
  unfold np_sum. induction a as [|x a IH].
  - left. exists 0%R. split; [lra | reflexivity].
  - cbn [map foldr].
    destruct IH as [(s & Hs & ->) | [-> | ->]]; destruct x as [r| | |];
      cbn [fmul fadd]; auto.
    left. exists (r * r + s)%R. split; [nra | reflexivity].
Qed.

Lemma linalg_norm_range (a : list fval) :
  (exists m : R, (0 <= m)%R /\ linalg_norm a = Fin m)
  \/ linalg_norm a = PInf
  \/ linalg_norm a = NaN.
Proof.
  unfold linalg_norm.
  destruct (sum_squares_range a) as [(s & Hs & ->) | [-> | ->]]; auto.
  left. exists (sqrt s). split; [apply sqrt_pos | apply fsqrt_fin, Hs].
Qed.

Lemma all_zero_finite (a : list fval) :
  Forall (fun c => c = Fin 0) a -> a = finite (replicate (length a) 0%R).
Proof.
  induction 1 as [|c a Hc _ IH]; [reflexivity |].
  cbn [length replicate finite map]. rewrite Hc. f_equal. exact IH.
Qed.

Lemma replicate_all_zero (n : nat) : Forall (fun c => c = 0%R) (replicate n 0%R).
Proof. induction n as [|n IH]; constructor; [reflexivity | exact IH]. Qed.

Lemma linalg_norm_zeros (a : list fval) :
  Forall (fun c => c = Fin 0) a -> linalg_norm a = Fin 0.
Proof.
  intros Ha. rewrite (all_zero_finite a Ha), linalg_norm_finite. f_equal.
  apply l2_norm_zero_iff, replicate_all_zero.
Qed.

(** Division of a norm by a zero norm: NaN or plus infinity. *)
Lemma norm_over_zero (x : fval) :
  (exists m : R, (0 <= m)%R /\ x = Fin m) \/ x = PInf \/ x = NaN ->
  fdiv x (Fin 0) = NaN \/ fdiv x (Fin 0) = PInf.
Proof.
  intros [(m & Hm & ->) | [-> | ->]]; unfold fdiv, Rsign_fval.
  - destruct (Req_dec_T 0 0); [| contradiction].
    destruct (Req_dec_T m 0); [left; reflexivity |].
    destruct (Rlt_dec 0 m); [right; reflexivity | lra].
  - destruct (Rlt_dec 0 0); [lra | right; reflexivity].
  - left; reflexivity.
Qed.

(** C3.  For float64 sequences of equal length, NaN and infinities
    included, [compute_reconstruction_error] raises nothing and returns
    the quotient of the two norms that it computes.  For an identically
    zero original this quotient is NaN or plus infinity: NaN when the
    reconstruction is identically zero too, plus infinity when the
    reconstruction consists of real numbers one of which has magnitude at
    least 1. *)
Theorem compute_reconstruction_error_spec (original reconstructed : list fval) :
  length original = length reconstructed ->
  metrics.compute_reconstruction_error original reconstructed
  = Ok (fdiv (linalg_norm (zip_with fsub original reconstructed))
             (linalg_norm original))
  /\ (Forall (fun c => c = Fin 0) original ->
      (metrics.compute_reconstruction_error original reconstructed = Ok NaN
       \/ metrics.compute_reconstruction_error original reconstructed = Ok PInf)
      /\ (Forall (fun c => c = Fin 0) reconstructed ->
          metrics.compute_reconstruction_error original reconstructed = Ok NaN)
      /\ (forall values : list R,
            reconstructed = finite values ->
            (exists c : R, In c values /\ (1 <= Rabs c)%R) ->
            metrics.compute_reconstruction_error original reconstructed
            = Ok PInf)).
Proof.
  intros Hlen.
  assert (Hvalue : metrics.compute_reconstruction_error original reconstructed
                   = Ok (fdiv (linalg_norm (zip_with fsub original reconstructed))
                              (linalg_norm original))).
  { unfold metrics.compute_reconstruction_error.
    rewrite np_binop_same_length by exact Hlen. reflexivity. }
  split; [exact Hvalue |].
  intros Ho. split; [| split].
  - rewrite Hvalue, (linalg_norm_zeros original Ho).
    destruct (norm_over_zero _ (linalg_norm_range
                                  (zip_with fsub original reconstructed)))
      as [-> | ->]; auto.
  - intros Hr.
    rewrite (all_zero_finite original Ho), (all_zero_finite reconstructed Hr).
    rewrite <- Hlen.
    rewrite compute_reconstruction_error_finite by reflexivity.
    pose proof (replicate_all_zero (length original)) as Hz.
    rewrite (vector_sub_from_zero_norm _ _ eq_refl Hz).
    apply l2_norm_zero_iff in Hz. rewrite Hz.
    unfold fdiv. destruct (Req_dec_T 0 0); [reflexivity | contradiction].
  - intros values -> (c & Hin & Hc).
    rewrite (all_zero_finite original Ho).
    assert (Hlen' : length (replicate (length original) 0%R) = length values)
      by (rewrite length_replicate, Hlen; unfold finite; apply length_map).
    rewrite compute_reconstruction_error_finite by exact Hlen'.
    pose proof (replicate_all_zero (length original)) as Hz.
    rewrite (vector_sub_from_zero_norm _ _ Hlen' Hz).
    apply l2_norm_zero_iff in Hz. rewrite Hz.
    assert (Hpos : (0 < l2_norm values)%R).
    { pose proof (l2_norm_nonneg values).
      destruct (Req_dec_T (l2_norm values) 0) as [Hnorm|Hnorm]; [| lra].
      apply l2_norm_zero_iff in Hnorm. rewrite Forall_forall in Hnorm.
      apply list_elem_of_In in Hin. rewrite (Hnorm c Hin), Rabs_R0 in Hc. lra. }
    unfold fdiv, Rsign_fval. destruct (Req_dec_T 0 0); [| contradiction].
    destruct (Req_dec_T (l2_norm values) 0); [lra |].
    destruct (Rlt_dec 0 (l2_norm values)); [reflexivity | contradiction].
Qed.

Lemma compute_reconstruction_error_spec_witness :
  metrics.compute_reconstruction_error [Fin 0; Fin 0] [Fin 3; Fin 4]
  = Ok (fdiv (linalg_norm (zip_with fsub [Fin 0; Fin 0] [Fin 3; Fin 4]))
             (linalg_norm [Fin 0; Fin 0]))
  /\ metrics.compute_reconstruction_error [Fin 0; Fin 0] [Fin 3; Fin 4] = Ok PInf
  /\ metrics.compute_reconstruction_error [Fin 0; Fin 0] [Fin 0; Fin 0] = Ok NaN.
Proof.
  split; [| split].
  - apply (proj1 (compute_reconstruction_error_spec
                    [Fin 0; Fin 0] [Fin 3; Fin 4] eq_refl)).
  - apply (proj2 (proj2 (proj2 (compute_reconstruction_error_spec
                                  [Fin 0; Fin 0] [Fin 3; Fin 4] eq_refl)
                           ltac:(repeat constructor)))
             [3%R; 4%R] eq_refl).
    exists 3%R. split; [left; reflexivity |].
    rewrite Rabs_right; lra.
  - apply (proj1 (proj2 (proj2 (compute_reconstruction_error_spec
                                  [Fin 0; Fin 0] [Fin 0; Fin 0] eq_refl)
                           ltac:(repeat constructor))));
      repeat constructor.
Defined.

(** An identically zero original (and reconstruction): the call returns NaN
    and raises nothing. *)
Lemma compute_reconstruction_error_zero_returns_NaN :
  metrics.compute_reconstruction_error [Fin 0; Fin 0; Fin 0] [Fin 0; Fin 0; Fin 0]
  = Ok NaN
  /\ ~ (exists e : exn,
          metrics.compute_reconstruction_error
            [Fin 0; Fin 0; Fin 0] [Fin 0; Fin 0; Fin 0] = Raise e).
Proof.
  assert (H : metrics.compute_reconstruction_error
                [Fin 0; Fin 0; Fin 0] [Fin 0; Fin 0; Fin 0] = Ok NaN).
  { change [Fin 0; Fin 0; Fin 0] with (finite [0%R; 0%R; 0%R]).
    rewrite compute_reconstruction_error_finite by reflexivity.
    assert (Hz : Forall (fun c => c = 0%R) [0%R; 0%R; 0%R]) by repeat constructor.
    rewrite (vector_sub_from_zero_norm _ _ eq_refl Hz).
    apply l2_norm_zero_iff in Hz. rewrite Hz.
    unfold fdiv. destruct (Req_dec_T 0 0); [reflexivity | contradiction]. }
  split; [exact H |]. intros [e He]. rewrite H in He. discriminate.
Qed.

(** ** compute_parameter_stability *)

Lemma successive_pairs_by_index {A B : Type} (f : A -> A -> B) (d : A) (l : list A) :
  zip_with f (tail l) l
  = map (fun k => f (nth (S k) l d) (nth k l d)) (seq 0 (length l - 1)).
Proof.
  induction l as [|x l IH]; [reflexivity |].
  destruct l as [|y l]; [reflexivity |].
  cbn [tail zip_with length]. cbn [tail] in IH.
  replace (S (S (length l)) - 1)%nat with (S (length l)) by lia.
  cbn [seq map nth]. f_equal.
  rewrite IH. cbn [length].
  replace (S (length l) - 1)%nat with (length l) by lia.
  rewrite <- seq_shift, map_map. reflexivity.
Qed.

Lemma row_diff_finite (history : list (list R)) :
  metrics.row_diff (finite_rows history)
  = finite_rows (zip_with vector_sub (tail history) history).
Proof.
  unfold metrics.row_diff, finite_rows.
  induction history as [|x history IH]; [reflexivity |].
  destruct history as [|y history]; [reflexivity |].
  cbn [map tail zip_with] in *. rewrite zip_fsub_finite. f_equal. exact IH.
Qed.

Lemma norms_finite (rows : list (list R)) :
  map linalg_norm (finite_rows rows) = finite (map l2_norm rows).
Proof.
  unfold finite_rows, finite at 2. rewrite !map_map.
  apply map_ext. intros row. apply linalg_norm_finite.
Qed.

Lemma fmaximum_finite (a b : R) : fmaximum (Fin a) (Fin b) = Fin (Rmax a b).
Proof.
  unfold fmaximum, fle, Rmax. destruct (Rle_dec a b); reflexivity.
Qed.

Lemma foldl_fmaximum_finite (x : R) (l : list R) :
  foldl fmaximum (Fin x) (finite l) = Fin (foldl Rmax x l).
Proof.
  unfold finite. revert x. induction l as [|y l IH]; intros x; [reflexivity |].
  cbn [map foldl]. rewrite fmaximum_finite. apply IH.
Qed.

Lemma np_max_finite (x : R) (l : list R) :
  np_max (finite (x :: l)) = Ok (Fin (foldl Rmax x l)).
Proof.
  change (finite (x :: l)) with (Fin x :: finite l).
  cbn [np_max]. rewrite foldl_fmaximum_finite. reflexivity.
Qed.

Lemma foldl_Rmax_bounds (x : R) (l : list R) :
  In (foldl Rmax x l) (x :: l)
  /\ forall y, In y (x :: l) -> (y <= foldl Rmax x l)%R.
Proof.
  revert x. induction l as [|z l IH]; intros x; cbn [foldl].
  - split; [left; reflexivity |]. intros y [<-|[]]. lra.
  - destruct (IH (Rmax x z)) as [Hin Hub]. split.
    + destruct Hin as [Heq|Hin]; [| right; right; exact Hin].
      rewrite <- Heq. unfold Rmax. destruct (Rle_dec x z); simpl; auto.
    + intros y Hy.
      assert (Hm : (Rmax x z <= foldl Rmax (Rmax x z) l)%R)
        by (apply Hub; left; reflexivity).
      destruct Hy as [<-|[<-|Hy]].
      * pose proof (Rmax_l x z). lra.
      * pose proof (Rmax_r x z). lra.
      * apply Hub. right. exact Hy.
Qed.

Lemma np_mean_finite (l : list R) :
  l <> [] -> np_mean (finite l) = Fin (Rmean l).
Proof.
  intros Hl. unfold np_mean, Rmean, of_nat.
  rewrite np_sum_finite. unfold finite. rewrite length_map.
  apply fdiv_fin. apply not_0_INR. destruct l; [contradiction | discriminate].
Qed.

Lemma last_finite (l : list R) :
  List.last (finite l) (Fin 0) = Fin (List.last l 0%R).
Proof.
  unfold finite. induction l as [|x [|y l] IH]; try reflexivity.
  exact IH.
Qed.

(** Both branches of [compute_parameter_stability]: a history of fewer
    than two vectors gives mean change and max change 0.0 and raises
    nothing; a history of at least two vectors of real numbers gives the
    mean, the maximum and the last of the L2 norms of the differences of
    consecutive vectors. *)
Lemma compute_parameter_stability_branches :
  (forall history : list (list fval),
      (length history < 2)%nat ->
      metrics.compute_parameter_stability history
      = Ok [("mean_change", Fin 0); ("max_change", Fin 0)])
  /\ (forall (history : list (list R)) (d : nat),
        (2 <= length history)%nat ->
        Forall (fun row => length row = d) history ->
        exists largest : R,
          metrics.compute_parameter_stability (finite_rows history)
          = Ok [("mean_change", Fin (Rmean (successive_change_norms history)));
                ("max_change", Fin largest);
                ("final_change",
                   Fin (List.last (successive_change_norms history) 0%R))]
          /\ In largest (successive_change_norms history)
          /\ forall x, In x (successive_change_norms history) ->
                       (x <= largest)%R).
Proof.
  split.
  - intros history H. unfold metrics.compute_parameter_stability.
    apply Nat.ltb_lt in H. rewrite H. reflexivity.
  - intros history d H _. unfold metrics.compute_parameter_stability.
    unfold finite_rows at 1. rewrite length_map.
    destruct (Nat.ltb_spec (length history) 2) as [Hlt|_]; [lia |].
    rewrite row_diff_finite, norms_finite.
    rewrite (successive_pairs_by_index vector_sub [] history), map_map.
    fold (successive_change_norms history).
    assert (Hlen : length (successive_change_norms history)
                   = (length history - 1)%nat)
      by (unfold successive_change_norms; rewrite length_map, length_seq; reflexivity).
    destruct (successive_change_norms history) as [|x norms] eqn:Hnorms;
      [simpl in Hlen; lia |].
    exists (foldl Rmax x norms).
    split; [| apply foldl_Rmax_bounds].
    rewrite np_max_finite. cbn [mbind result_bind].
    rewrite np_mean_finite by discriminate.
    rewrite last_finite.
    unfold finite at 1. rewrite length_map. reflexivity.
Qed.

Lemma compute_parameter_stability_branches_example :
  metrics.compute_parameter_stability [[Fin 1]]
  = Ok [("mean_change", Fin 0); ("max_change", Fin 0)]
  /\ exists largest : R,
       metrics.compute_parameter_stability (finite_rows [[1%R]; [4%R]])
       = Ok [("mean_change",
                Fin (Rmean (successive_change_norms [[1%R]; [4%R]])));
             ("max_change", Fin largest);
             ("final_change",
                Fin (List.last (successive_change_norms [[1%R]; [4%R]]) 0%R))]
       /\ In largest (successive_change_norms [[1%R]; [4%R]])
       /\ forall x, In x (successive_change_norms [[1%R]; [4%R]]) ->
                    (x <= largest)%R.
Proof.
  split.
  - apply (proj1 compute_parameter_stability_branches). simpl. lia.
  - apply (proj2 compute_parameter_stability_branches [[1%R]; [4%R]] 1%nat).
    + simpl. lia.
    + repeat constructor.
Defined.

(** C4.  On a history of fewer than two vectors (here the empty one and
    a single vector) the returned record holds mean change 0.0 and max
    change 0.0 but no most-recent change: the early return leaves out the
    "final_change" entry that the other branch reports. *)
Theorem compute_parameter_stability_short_has_no_final_change :
  (exists r : record,
      metrics.compute_parameter_stability [] = Ok r
      /\ dict_get r "mean_change" = Some (Fin 0)
      /\ dict_get r "max_change" = Some (Fin 0)
      /\ dict_get r "final_change" = None)
  /\ (exists r : record,
        metrics.compute_parameter_stability [[Fin 1]] = Ok r
        /\ dict_get r "mean_change" = Some (Fin 0)
        /\ dict_get r "max_change" = Some (Fin 0)
        /\ dict_get r "final_change" = None).
Proof.
  split; (eexists; split; [reflexivity |]; repeat split).
Qed.

(** ** sparse_optimization *)

Lemma zip_with_maps {A B C D : Type} (f : B -> C -> D) (g : A -> B) (h : A -> C)
    (l : list A) :
  zip_with f (map g l) (map h l) = map (fun x => f (g x) (h x)) l.
Proof.
  induction l as [|x l IH]; [reflexivity |].
  cbn [map zip_with]. rewrite IH. reflexivity.
Qed.

Lemma np_max_finite_bound (l : list R) :
  l <> [] ->
  exists largest : R,
    np_max (finite l) = Ok (Fin largest)
    /\ forall y, In y l -> (y <= largest)%R.
Proof.
  destruct l as [|x l]; [contradiction |]. intros _.
  exists (foldl Rmax x l). split; [apply np_max_finite |].
  apply foldl_Rmax_bounds.
Qed.









(** ** The control loop of [run] *)

Lemma compute_parameter_stability_shape (history : list (list fval)) (r : record) :
  metrics.compute_parameter_stability history = Ok r ->
  exists mean largest,
    r = [("mean_change", mean); ("max_change", largest)]
    \/ exists final,
         r = [("mean_change", mean); ("max_change", largest);
              ("final_change", final)].
Proof.
  unfold metrics.compute_parameter_stability.
  destruct (length history <? 2)%nat.
  - intros [= <-]. eauto.
  - destruct (np_max _); cbn [mbind result_bind]; [| discriminate].
    intros [= <-]. eauto.
Qed.

Lemma evaluate_pipeline_shape original processed history (m : record) :
  metrics.evaluate_pipeline original processed history = Ok m ->
  metrics_record_shape m.
Proof.
  unfold metrics.evaluate_pipeline.
  destruct (metrics.compute_deviation processed) as [d|];
    cbn [mbind result_bind]; [| discriminate].
  destruct (metrics.compute_reconstruction_error original processed) as [e|];
    cbn [mbind result_bind]; [| discriminate].
  destruct (metrics.compute_parameter_stability history) as [r|] eqn:Hr;
    cbn [mbind result_bind]; [| discriminate].
  intros [= <-].
  destruct (compute_parameter_stability_shape _ _ Hr)
    as (mean & largest & [-> | [final ->]]);
    exists d, e, mean, largest; [left | right; exists final]; reflexivity.
Qed.

Lemma empty_history_after_0 : history_after 0 pipeline.empty_history.
Proof.
  unfold history_after, pipeline.empty_history.
  repeat split; try reflexivity. exists []. split; reflexivity.
Qed.

Lemma store_metrics_after (k : nat) (h : gmap string (list fval)) (m : record) :
  history_after k h -> metrics_record_shape m ->
  history_after (S k) (pipeline.store_metrics h m).
Proof.
  intros (Hdev & Hpar & (values & Hrec & Hlen) & Hd & Hmean & Hmax & Hfinal)
         (d & e & mean & largest & Hm).
  assert (Hstore : pipeline.store_metrics h m
                   = <["reconstruction_error" := values ++ [e]]> h).
  { destruct Hm as [-> | [final ->]]; unfold pipeline.store_metrics;
      cbn [foldl fst snd]; rewrite Hd, Hrec;
      repeat (rewrite lookup_insert_ne by discriminate;
              rewrite ?Hmean, ?Hmax, ?Hfinal);
      reflexivity. }
  rewrite Hstore. unfold history_after.
  rewrite lookup_insert_eq, !lookup_insert_ne by discriminate.
  repeat split; try assumption.
  exists (values ++ [e]). split; [reflexivity |].
  rewrite length_app. simpl. lia.
Qed.

Lemma control_step_ok normalized_gaps potential_grad_fn spectral_grad_fn
    alpha metrics_history self alpha' metrics_history' self' :
  pipeline.control_step normalized_gaps potential_grad_fn spectral_grad_fn
    alpha metrics_history self
  = (Ok (alpha', metrics_history'), self') ->
  self' = self
  /\ exists processed history m,
       pipeline.processed_sequence self = Some processed
       /\ np_array (pipeline.alpha_history self) = Ok history
       /\ metrics.evaluate_pipeline normalized_gaps processed history = Ok m
       /\ metrics_history' = pipeline.store_metrics metrics_history m.
Proof.
  unfold pipeline.control_step.
  destruct (pipeline.processed_sequence self) as [processed|]; [| discriminate].
  destruct (np_array (pipeline.alpha_history self)) as [history|];
    cbn [mbind result_bind]; [| discriminate].
  destruct (metrics.evaluate_pipeline normalized_gaps processed history)
    as [m|] eqn:Hm; [| discriminate].
  assert (Hdone : (Ok (alpha, pipeline.store_metrics metrics_history m), self)
                  = (Ok (alpha', metrics_history'), self') ->
                  self' = self
                  /\ exists processed0 history0 m0,
                       Some processed = Some processed0
                       /\ Ok history = Ok history0
                       /\ metrics.evaluate_pipeline normalized_gaps processed0 history0
                          = Ok m0
                       /\ metrics_history' = pipeline.store_metrics metrics_history m0).
  { intros [= <- <- <-]. split; [reflexivity |].
    exists processed, history, m. auto. }
  destruct potential_grad_fn as [potential_grad|]; [| exact Hdone].
  destruct spectral_grad_fn as [spectral_grad|]; [| exact Hdone].
  destruct (statistics.cosmic_harmony_statistic processed) as [s|];
    cbn [mbind result_bind]; [| discriminate].
  unfold cal_controller.compute_gradient.
  destruct (cal_objective.cal_gradient alpha potential_grad spectral_grad s (Fin 1.0))
    as [g|] eqn:Hg; [| discriminate].
  exfalso. exact (cal_gradient_never_returns _ _ _ _ _ _ Hg).
Qed.

Lemma control_loop_ok (iterations : nat) :
  forall normalized_gaps potential_grad_fn spectral_grad_fn alpha
         metrics_history self h self' k,
    pipeline.control_loop iterations normalized_gaps
      potential_grad_fn spectral_grad_fn alpha metrics_history self
    = (Ok h, self') ->
    history_after k metrics_history ->
    self' = self
    /\ history_after (k + iterations) h
    /\ ((1 <= iterations)%nat ->
        exists processed history m,
          pipeline.processed_sequence self = Some processed
          /\ np_array (pipeline.alpha_history self) = Ok history
          /\ metrics.evaluate_pipeline normalized_gaps processed history = Ok m).
Proof.
  induction iterations as [|iterations IH];
    intros normalized_gaps potential_grad_fn spectral_grad_fn alpha
           metrics_history self h self' k Hloop Hafter.
  - cbn [pipeline.control_loop] in Hloop. injection Hloop as <- <-.
    rewrite Nat.add_0_r. split; [reflexivity |]. split; [exact Hafter | lia].
  - cbn [pipeline.control_loop] in Hloop.
    destruct (pipeline.control_step normalized_gaps potential_grad_fn
                spectral_grad_fn alpha metrics_history self)
      as [[[alpha1 metrics_history1]|e] self1] eqn:Hstep; [| discriminate].
    apply control_step_ok in Hstep.
    destruct Hstep as (-> & processed & history & m & Hp & Hh & Hm & ->).
    apply (IH _ _ _ _ _ _ _ _ (S k)) in Hloop;
      [| apply store_metrics_after;
         [exact Hafter | exact (evaluate_pipeline_shape _ _ _ _ Hm)]].
    destruct Hloop as (-> & Hfinal & _).
    split; [reflexivity |].
    split; [replace (k + S iterations)%nat with (S k + iterations)%nat by lia;
            exact Hfinal |].
    intros _. exists processed, history, m. auto.
Qed.

Lemma run_ok (self : pipeline.SpectralPipeline) (n_iterations : Z)
    potential_grad_fn spectral_grad_fn h self' :
  pipeline.run n_iterations potential_grad_fn spectral_grad_fn self
  = (Ok h, self') ->
  exists sequence processed,
    load (pipeline.data_source self) = Ok sequence
    /\ pipeline.original_sequence self' = Some sequence
    /\ pipeline.processed_sequence self' = Some processed
    /\ pipeline.alpha_history self' = pipeline.alpha_history self
    /\ history_after (Z.to_nat n_iterations) h
    /\ ((1 <= n_iterations)%Z ->
        exists history m,
          np_array (pipeline.alpha_history self) = Ok history
          /\ metrics.evaluate_pipeline (normalize_gaps sequence) processed history
             = Ok m).
Proof.
  unfold pipeline.run.
  destruct (load (pipeline.data_source self)) as [sequence|]; [| discriminate].
  set (self1 := pipeline.set_original_sequence sequence self).
  destruct (transform (pipeline.representation self1) (normalize_gaps sequence)
            ≫= inverse_transform (pipeline.representation self1))
    as [processed|]; [| discriminate].
  intros Hloop.
  apply (control_loop_ok _ _ _ _ _ _ _ _ _ 0%nat) in Hloop;
    [| exact empty_history_after_0].
  destruct Hloop as (-> & Hafter & Hfirst).
  exists sequence, processed.
  do 4 (split; [reflexivity |]). split; [exact Hafter |].
  intros Hn. destruct Hfirst as (processed' & history & m & Hp & Hh & Hm); [lia |].
  cbn in Hp. injection Hp as <-. exists history, m. split; [exact Hh | exact Hm].
Qed.

(** C2.  In the history that a successful [run] returns, the lists under
    "deviation" and "parameter_change" are empty whatever the number of
    iterations, because no key of the per-iteration record matches them;
    only "reconstruction_error" holds one value per iteration. *)
Theorem run_metrics_history (self : pipeline.SpectralPipeline) (n_iterations : Z)
    (potential_grad_fn spectral_grad_fn : option pipeline.gradient_fn)
    (h : gmap string (list fval)) (self' : pipeline.SpectralPipeline) :
  pipeline.run n_iterations potential_grad_fn spectral_grad_fn self
  = (Ok h, self') ->
  h !! "deviation" = Some []
  /\ h !! "parameter_change" = Some []
  /\ exists values, h !! "reconstruction_error" = Some values
                    /\ length values = Z.to_nat n_iterations.
Proof.
  intros Hrun. apply run_ok in Hrun.
  destruct Hrun as (_ & _ & _ & _ & _ & _ & (Hdev & Hpar & Hrec & _) & _).
  auto.
Qed.

Lemma run_four_points_succeeds :
  exists h self',
    pipeline.run 2 None None (pipeline.init four_points None None)
    = (Ok h, self').
Proof. eexists. eexists. reflexivity. Qed.

Lemma run_metrics_history_witness :
  exists h self',
    pipeline.run 2 None None (pipeline.init four_points None None)
    = (Ok h, self')
    /\ h !! "deviation" = Some []
    /\ h !! "parameter_change" = Some []
    /\ exists values, h !! "reconstruction_error" = Some values
                      /\ length values = Z.to_nat 2.
Proof.
  destruct run_four_points_succeeds as (h & self' & Hrun).
  exists h, self'. split; [exact Hrun |].
  exact (run_metrics_history _ _ _ _ _ _ Hrun).
Defined.

(** ** get_final_metrics *)

(** C5.  On a pipeline that has not been run, [get_final_metrics] raises
    the [ValueError] "Pipeline must be run first".  After a completed run
    it evaluates the pipeline on the gaps recomputed from the stored
    original sequence, and returns a record whenever the run made at least
    one iteration. *)
Theorem get_final_metrics_spec :
  (forall (data_source : DataSource) (representation : option Representation)
          (controller : option cal_controller.CALController),
      pipeline.get_final_metrics
        (pipeline.init data_source representation controller)
      = Raise (ValueError "Pipeline must be run first"))
  /\ (forall (self : pipeline.SpectralPipeline) (n_iterations : Z)
             (potential_grad_fn spectral_grad_fn : option pipeline.gradient_fn)
             (h : gmap string (list fval)) (self' : pipeline.SpectralPipeline),
        pipeline.run n_iterations potential_grad_fn spectral_grad_fn self
        = (Ok h, self') ->
        exists original processed,
          pipeline.original_sequence self' = Some original
          /\ pipeline.processed_sequence self' = Some processed
          /\ pipeline.get_final_metrics self'
             = (history ← np_array (pipeline.alpha_history self');
                metrics.evaluate_pipeline (normalize_gaps original)
                  processed history)
          /\ ((1 <= n_iterations)%Z ->
              exists m : record, pipeline.get_final_metrics self' = Ok m)).
Proof.
  split; [reflexivity |].
  intros self n_iterations potential_grad_fn spectral_grad_fn h self' Hrun.
  apply run_ok in Hrun.
  destruct Hrun as (original & processed & _ & Ho & Hp & Ha & _ & Hfirst).
  exists original, processed.
  assert (Hfinal : pipeline.get_final_metrics self'
                   = (history ← np_array (pipeline.alpha_history self');
                      metrics.evaluate_pipeline (normalize_gaps original)
                        processed history))
    by (unfold pipeline.get_final_metrics; rewrite Ho, Hp; reflexivity).
  do 3 (split; [assumption |]).
  intros Hn. destruct (Hfirst Hn) as (history & m & Hh & Hm).
  exists m. rewrite Hfinal, Ha, Hh. exact Hm.
Qed.

Lemma get_final_metrics_spec_witness :
  pipeline.get_final_metrics (pipeline.init four_points None None)
  = Raise (ValueError "Pipeline must be run first")
  /\ exists h self',
       pipeline.run 2 None None (pipeline.init four_points None None)
       = (Ok h, self')
       /\ exists m : record, pipeline.get_final_metrics self' = Ok m.
Proof.
  split; [apply (proj1 get_final_metrics_spec) |].
  destruct run_four_points_succeeds as (h & self' & Hrun).
  exists h, self'. split; [exact Hrun |].
  destruct (proj2 get_final_metrics_spec _ _ _ _ _ _ Hrun)
    as (original & processed & _ & _ & _ & Hm).
  apply Hm. lia.
Defined.

(** A run of zero iterations over three points completes, and
    [get_final_metrics] then raises the insufficient-data error. *)
Lemma get_final_metrics_after_empty_run_raises :
  exists h self',
    pipeline.run 0 None None (pipeline.init three_points None None)
    = (Ok h, self')
    /\ pipeline.get_final_metrics self'
       = Raise (ValueError "Need at least 3 gaps for S_N computation").
Proof. eexists. eexists. split; reflexivity. Qed.

(** * Further properties of the code *)

(** ** compute_update *)

Lemma zip_with_finite (f : fval -> fval -> fval) (f' : R -> R -> R) (x y : list R) :
  (forall a b, f (Fin a) (Fin b) = Fin (f' a b)) ->
  zip_with f (finite x) (finite y) = finite (zip_with f' x y).
Proof.
  intros Hf. unfold finite. revert y.
  induction x as [|a x IH]; intros [|b y]; try reflexivity.
  cbn [map zip_with]. rewrite Hf, IH. reflexivity.
Qed.

Lemma np_scale_finite (c : R) (x : list R) :
  np_scale (Fin c) (finite x) = finite (map (fun a => (c * a)%R) x).
Proof. unfold np_scale, finite. rewrite !map_map. reflexivity. Qed.

Lemma length_finite (x : list R) : length (finite x) = length x.
Proof. apply length_map. Qed.

Lemma zip_with_scaled (eta m : R) (v g : list R) :
  zip_with Rplus (map (fun a => (m * a)%R) v) (map (fun a => (eta * a)%R) g)
  = momentum_velocity eta m v g.
Proof.
  unfold momentum_velocity. revert g.
  induction v as [|x v IH]; intros [|y g]; try reflexivity.
  cbn [map zip_with]. rewrite IH. reflexivity.
Qed.

Lemma length_momentum_velocity (eta m : R) (v g : list R) :
  length v = length g -> length (momentum_velocity eta m v g) = length v.
Proof.
  intros H. unfold momentum_velocity. rewrite length_zip_with. lia.
Qed.

(** One call from the ready state, on vectors of real numbers. *)
Lemma compute_update_step (eta m : R)
    (project : option (list fval -> result (list fval))) (v a g : list R) :
  length v = length a -> length g = length a ->
  cal_controller.compute_update (finite a) (finite g)
    {| cal_controller.learning_rate := Fin eta;
       cal_controller.momentum := Fin m;
       cal_controller.projection_fn := project;
       cal_controller.velocity := Some (finite v) |}
  = (match project with
     | Some p => p (finite (descent_step a (momentum_velocity eta m v g)))
     | None => Ok (finite (descent_step a (momentum_velocity eta m v g)))
     end,
     {| cal_controller.learning_rate := Fin eta;
        cal_controller.momentum := Fin m;
        cal_controller.projection_fn := project;
        cal_controller.velocity := Some (finite (momentum_velocity eta m v g)) |}).
Proof.
  intros Hv Hg. unfold cal_controller.compute_update.
  cbn [cal_controller.velocity cal_controller.momentum
       cal_controller.learning_rate default from_option Datatypes.id].
  rewrite !np_scale_finite.
  rewrite np_binop_same_length
    by (rewrite !length_finite, !length_map; congruence).
  rewrite (zip_with_finite fadd Rplus) by reflexivity.
  rewrite zip_with_scaled.
  unfold cal_controller.set_velocity.
  cbn [cal_controller.velocity cal_controller.momentum
       cal_controller.learning_rate cal_controller.projection_fn].
  rewrite np_binop_same_length
    by (rewrite !length_finite, length_momentum_velocity; congruence).
  rewrite (zip_with_finite fsub Rminus) by reflexivity.
  fold (vector_sub a (momentum_velocity eta m v g)).
  destruct project; reflexivity.
Qed.

Lemma momentum_velocity_from_zero (eta m : R) (g : list R) :
  momentum_velocity eta m (replicate (length g) 0%R) g
  = map (fun y => (eta * y)%R) g.
Proof.
  unfold momentum_velocity. induction g as [|y g IH]; [reflexivity |].
  cbn [length replicate zip_with map]. rewrite IH. f_equal. lra.
Qed.

Lemma descent_step_scaled (eta : R) (a g : list R) :
  descent_step a (map (fun y => (eta * y)%R) g)
  = zip_with (fun x y => (x - eta * y)%R) a g.
Proof.
  unfold descent_step, vector_sub. revert g.
  induction a as [|x a IH]; intros [|y g]; try reflexivity.
  cbn [map zip_with]. rewrite IH. reflexivity.
Qed.

(** X1.  The first call of [compute_update] on a controller without a
    projection, whether its velocity is still unset or was zero-filled by
    [initialize], is a plain gradient step: it returns [alpha - eta * g]
    and stores [eta * g] as the velocity, whatever the momentum. *)
Theorem compute_update_first_step (eta m : R) (a g : list R) :
  length g = length a ->
  cal_controller.compute_update (finite a) (finite g)
    (cal_controller.init (Fin eta) (Fin m) None)
  = (Ok (finite (zip_with (fun x y => (x - eta * y)%R) a g)),
     cal_controller.set_velocity (finite (map (fun y => (eta * y)%R) g))
       (cal_controller.init (Fin eta) (Fin m) None))
  /\ cal_controller.compute_update (finite a) (finite g)
       (cal_controller.initialize (length a)
          (cal_controller.init (Fin eta) (Fin m) None))
     = (Ok (finite (zip_with (fun x y => (x - eta * y)%R) a g)),
        cal_controller.set_velocity (finite (map (fun y => (eta * y)%R) g))
          (cal_controller.init (Fin eta) (Fin m) None)).
Proof.
  intros Hg.
  assert (Hready :
    cal_controller.compute_update (finite a) (finite g)
      (cal_controller.initialize (length a)
         (cal_controller.init (Fin eta) (Fin m) None))
    = (Ok (finite (zip_with (fun x y => (x - eta * y)%R) a g)),
       cal_controller.set_velocity (finite (map (fun y => (eta * y)%R) g))
         (cal_controller.init (Fin eta) (Fin m) None))).
  { unfold cal_controller.initialize, cal_controller.set_velocity,
      cal_controller.init.
    cbn [cal_controller.learning_rate cal_controller.momentum
         cal_controller.projection_fn].
    change (replicate (length a) (Fin 0))
      with (replicate (length a) (Fin 0%R)).
    replace (replicate (length a) (Fin 0%R))
      with (finite (replicate (length g) 0%R))
      by (unfold finite; rewrite Hg; apply fmap_replicate).
    rewrite compute_update_step
      by (rewrite ?length_replicate; congruence).
    rewrite momentum_velocity_from_zero, descent_step_scaled. reflexivity. }
  split; [| exact Hready].
  rewrite <- Hready. unfold cal_controller.compute_update at 1.
  cbn [cal_controller.init cal_controller.velocity].
  rewrite length_finite. reflexivity.
Qed.

Lemma compute_update_first_step_witness :
  cal_controller.compute_update (finite [1%R]) (finite [2%R])
    (cal_controller.init (Fin 0.01) (Fin 0.9) None)
  = (Ok (finite (zip_with (fun x y => (x - 0.01 * y)%R) [1%R] [2%R])),
     cal_controller.set_velocity (finite (map (fun y => (0.01 * y)%R) [2%R]))
       (cal_controller.init (Fin 0.01) (Fin 0.9) None)).
Proof.
  exact (proj1 (compute_update_first_step 0.01 0.9 [1%R] [2%R] eq_refl)).
Defined.

(** X2.  Whatever the arguments and whether it returns or raises,
    [compute_update] leaves the controller with a velocity (the ready state
    is never left) and with the same learning rate, momentum and
    projection. *)
Theorem compute_update_keeps_ready (alpha gradient : list fval)
    (self : cal_controller.CALController) :
  cal_controller.velocity
    (snd (cal_controller.compute_update alpha gradient self)) <> None
  /\ cal_controller.learning_rate
       (snd (cal_controller.compute_update alpha gradient self))
     = cal_controller.learning_rate self
  /\ cal_controller.momentum
       (snd (cal_controller.compute_update alpha gradient self))
     = cal_controller.momentum self
  /\ cal_controller.projection_fn
       (snd (cal_controller.compute_update alpha gradient self))
     = cal_controller.projection_fn self.
Proof.
  unfold cal_controller.compute_update.
  destruct self as [lr mo pr [v|]];
    cbn [cal_controller.velocity cal_controller.initialize
         cal_controller.set_velocity cal_controller.learning_rate
         cal_controller.momentum cal_controller.projection_fn];
    match goal with
    | |- context [np_binop fadd ?x ?y] => destruct (np_binop fadd x y)
    end;
    cbn [snd cal_controller.velocity cal_controller.set_velocity
         cal_controller.learning_rate cal_controller.momentum
         cal_controller.projection_fn];
    repeat split; discriminate.
Qed.

(** X3.  The momentum rule from the ready state, on vectors of real
    numbers of one length: the velocity becomes [m * v + eta * g], the
    result is [alpha] minus the new velocity, passed through the
    projection when one is configured, and the stored velocity is the
    unprojected one. *)
Theorem compute_update_momentum_rule (eta m : R)
    (project : option (list fval -> result (list fval))) (v a g : list R) :
  length v = length a -> length g = length a ->
  cal_controller.compute_update (finite a) (finite g)
    {| cal_controller.learning_rate := Fin eta;
       cal_controller.momentum := Fin m;
       cal_controller.projection_fn := project;
       cal_controller.velocity := Some (finite v) |}
  = (match project with
     | Some p => p (finite (descent_step a (momentum_velocity eta m v g)))
     | None => Ok (finite (descent_step a (momentum_velocity eta m v g)))
     end,
     {| cal_controller.learning_rate := Fin eta;
        cal_controller.momentum := Fin m;
        cal_controller.projection_fn := project;
        cal_controller.velocity := Some (finite (momentum_velocity eta m v g)) |}).
Proof. apply compute_update_step. Qed.

Lemma compute_update_momentum_rule_witness :
  cal_controller.compute_update (finite [1%R; 2%R]) (finite [3%R; 4%R])
    {| cal_controller.learning_rate := Fin 0.01;
       cal_controller.momentum := Fin 0.9;
       cal_controller.projection_fn := Some (fun x => Ok (np_scale (Fin 0.5) x));
       cal_controller.velocity := Some (finite [5%R; 6%R]) |}
  = (Ok (np_scale (Fin 0.5)
           (finite (descent_step [1%R; 2%R]
                      (momentum_velocity 0.01 0.9 [5%R; 6%R] [3%R; 4%R])))),
     {| cal_controller.learning_rate := Fin 0.01;
        cal_controller.momentum := Fin 0.9;
        cal_controller.projection_fn := Some (fun x => Ok (np_scale (Fin 0.5) x));
        cal_controller.velocity :=
          Some (finite (momentum_velocity 0.01 0.9 [5%R; 6%R] [3%R; 4%R])) |}).
Proof.
  exact (compute_update_momentum_rule 0.01 0.9
           (Some (fun x => Ok (np_scale (Fin 0.5) x)))
           [5%R; 6%R] [1%R; 2%R] [3%R; 4%R] eq_refl eq_refl).
Defined.

Lemma np_binop_mismatch (f : fval -> fval -> fval) (a b : list fval) :
  length a <> length b -> length a <> 1%nat -> length b <> 1%nat ->
  np_binop f a b = Raise broadcast_error.
Proof.
  intros Hab Ha Hb. unfold np_binop.
  destruct (Nat.eqb_spec (length a) (length b)) as [Heq|_]; [contradiction |].
  destruct a as [|x [|x' a]]; destruct b as [|y [|y' b]];
    simpl in *; try reflexivity; congruence.
Qed.

(** X4.  A gradient whose length differs from that of [alpha], neither
    length being one, cannot be broadcast: the first [compute_update]
    raises NumPy's [ValueError] and leaves the velocity zero-filled. *)
Theorem compute_update_shape_mismatch (alpha gradient : list fval)
    (self : cal_controller.CALController) :
  cal_controller.velocity self = None ->
  length alpha <> length gradient ->
  length alpha <> 1%nat -> length gradient <> 1%nat ->
  cal_controller.compute_update alpha gradient self
  = (Raise broadcast_error,
     cal_controller.initialize (length alpha) self).
Proof.
  intros Hv Hlen Ha Hg. unfold cal_controller.compute_update. rewrite Hv.
  cbn [cal_controller.initialize cal_controller.set_velocity
       cal_controller.velocity cal_controller.momentum
       cal_controller.learning_rate default from_option Datatypes.id].
  rewrite np_binop_mismatch; [reflexivity | | |];
    unfold np_scale; rewrite !length_map, ?length_replicate; assumption.
Qed.

Lemma compute_update_shape_mismatch_witness :
  cal_controller.compute_update [Fin 1; Fin 2] [Fin 1; Fin 2; Fin 3]
    cal_controller.init_default
  = (Raise broadcast_error,
     cal_controller.initialize 2 cal_controller.init_default).
Proof.
  apply (compute_update_shape_mismatch [Fin 1; Fin 2] [Fin 1; Fin 2; Fin 3]
           cal_controller.init_default eq_refl); simpl; lia.
Defined.

(** ** normalize_gaps *)

Lemma np_diff_finite (x : list R) : np_diff (finite x) = finite (Rdiff x).
Proof.
  unfold np_diff, Rdiff.
  replace (tail (finite x)) with (finite (tail x)) by (destruct x; reflexivity).
  apply zip_with_finite. reflexivity.
Qed.

Lemma length_np_diff (a : list fval) : length (np_diff a) = (length a - 1)%nat.
Proof.
  unfold np_diff. rewrite length_zip_with. destruct a; simpl; lia.
Qed.

Lemma length_normalize_gaps (sequence : list fval) :
  length (normalize_gaps sequence) = (length sequence - 1)%nat.
Proof. unfold normalize_gaps. rewrite length_map. apply length_np_diff. Qed.

Lemma Rmean_nonzero_nonempty (x : list R) : Rmean x <> 0%R -> x <> [].
Proof.
  intros H ->. apply H. unfold Rmean. simpl. lra.
Qed.

Lemma normalize_gaps_finite (x : list R) :
  Rmean (Rdiff x) <> 0%R ->
  normalize_gaps (finite x)
  = finite (map (fun g => (g / Rmean (Rdiff x))%R) (Rdiff x)).
Proof.
  intros Hmean. unfold normalize_gaps. rewrite np_diff_finite.
  rewrite np_mean_finite by (apply Rmean_nonzero_nonempty, Hmean).
  unfold finite. rewrite !map_map. apply map_ext. intros g.
  apply fdiv_fin, Hmean.
Qed.

Lemma np_sum_NaN (a : list fval) : In NaN a -> np_sum a = NaN.
Proof.
  unfold np_sum. induction a as [|x a IH]; [contradiction |].
  intros [->|Hin]; cbn [foldr]; [reflexivity |].
  rewrite (IH Hin). destruct x; reflexivity.
Qed.

Lemma np_diff_NaN (a : list fval) :
  In NaN a -> (2 <= length a)%nat -> In NaN (np_diff a).
Proof.
  unfold np_diff. induction a as [|x a IH]; [contradiction |].
  destruct a as [|y a]; [simpl; lia |].
  intros Hin _. cbn [tail zip_with].
  destruct Hin as [->|[->|Hin]].
  - left. destruct y; reflexivity.
  - left. reflexivity.
  - right. apply IH; [right; exact Hin |].
    destruct a; [contradiction | simpl; lia].
Qed.

Lemma divide_by_NaN (a : list fval) :
  map (fun g => fdiv g NaN) a = replicate (length a) NaN.
Proof.
  induction a as [|g a IH]; [reflexivity |].
  cbn [map length replicate]. rewrite IH. destruct g; reflexivity.
Qed.

(** X5.  [normalize_gaps] raises nothing and returns one value fewer than
    the sequence has points, whatever the points (NaN and infinities
    included); a single NaN among the points turns every normalized gap
    into NaN, through the mean gap. *)
Theorem normalize_gaps_length_and_NaN (sequence : list fval) :
  length (normalize_gaps sequence) = (length sequence - 1)%nat
  /\ (In NaN sequence ->
      normalize_gaps sequence = replicate (length sequence - 1) NaN).
Proof.
  split; [apply length_normalize_gaps |].
  intros Hin. unfold normalize_gaps.
  destruct (Nat.le_gt_cases 2 (length sequence)) as [Hlen|Hlen].
  - assert (Hmean : np_mean (np_diff sequence) = NaN).
    { unfold np_mean. rewrite np_sum_NaN by (apply np_diff_NaN; assumption).
      reflexivity. }
    rewrite Hmean, divide_by_NaN, length_np_diff. reflexivity.
  - destruct sequence as [|x [|y sequence]]; [reflexivity | reflexivity |].
    simpl in Hlen. lia.
Qed.

Lemma normalize_gaps_length_and_NaN_witness :
  length (normalize_gaps [Fin 1; NaN; Fin 4; Fin 7]) = 3%nat
  /\ normalize_gaps [Fin 1; NaN; Fin 4; Fin 7] = [NaN; NaN; NaN].
Proof.
  split.
  - apply (proj1 (normalize_gaps_length_and_NaN [Fin 1; NaN; Fin 4; Fin 7])).
  - apply (proj2 (normalize_gaps_length_and_NaN [Fin 1; NaN; Fin 4; Fin 7])).
    right. left. reflexivity.
Defined.

Lemma map_const_replicate {A B : Type} (c : B) (l : list A) :
  map (fun _ => c) l = replicate (length l) c.
Proof. induction l as [|x l IH]; [reflexivity |]. simpl. rewrite IH. reflexivity. Qed.

Lemma nth_progression (a h : R) (n k : nat) :
  (k < n)%nat -> nth k (progression a h n) 0%R = (a + INR k * h)%R.
Proof.
  intros Hk. unfold progression.
  rewrite (nth_indep _ 0%R (a + INR 0 * h)%R)
    by (rewrite length_map, length_seq; exact Hk).
  rewrite (map_nth (fun i => (a + INR i * h)%R) (seq 0 n) 0%nat k).
  rewrite seq_nth by exact Hk. reflexivity.
Qed.

Lemma Rdiff_progression (a h : R) (n : nat) :
  Rdiff (progression a h n) = replicate (n - 1) h.
Proof.
  unfold Rdiff. rewrite (successive_pairs_by_index Rminus 0%R).
  assert (Hlen : length (progression a h n) = n)
    by (unfold progression; rewrite length_map, length_seq; reflexivity).
  rewrite Hlen.
  transitivity (map (fun _ : nat => h) (seq 0 (n - 1)));
    [| rewrite map_const_replicate, length_seq; reflexivity].
  apply map_ext_in. intros k Hk. apply in_seq in Hk.
  rewrite !nth_progression by lia. rewrite S_INR. lra.
Qed.

Lemma Rmean_replicate (c : R) (n : nat) :
  (1 <= n)%nat -> Rmean (replicate n c) = c.
Proof.
  intros Hn. unfold Rmean. rewrite length_replicate.
  assert (Hsum : fold_right Rplus 0%R (replicate n c) = (INR n * c)%R).
  { clear Hn. induction n as [|n IH]; [simpl; lra |].
    cbn [replicate fold_right]. rewrite IH, S_INR. lra. }
  rewrite Hsum. field. apply not_0_INR. lia.
Qed.

Lemma normalize_gaps_progression (a h : R) (n : nat) :
  h <> 0%R -> (2 <= n)%nat ->
  normalize_gaps (finite (progression a h n)) = replicate (n - 1) (Fin 1).
Proof.
  intros Hh Hn.
  assert (Hmean : Rmean (Rdiff (progression a h n)) = h)
    by (rewrite Rdiff_progression; apply Rmean_replicate; lia).
  rewrite normalize_gaps_finite by (rewrite Hmean; exact Hh).
  rewrite Hmean, Rdiff_progression.
  unfold finite. rewrite map_map.
  change (map ?f (replicate ?k ?x)) with (f <$> replicate k x).
  rewrite fmap_replicate. do 2 f_equal. field. exact Hh.
Qed.

Lemma compute_deviation_of_statistic (gaps : list fval) (s : fval) :
  statistics.cosmic_harmony_statistic gaps = Ok s ->
  metrics.compute_deviation gaps = Ok (fabs (fsub s statistics.C_GUE)).
Proof.
  intros Hs. unfold metrics.compute_deviation. rewrite Hs.
  cbn [mbind result_bind]. rewrite load_global_metrics_C_GUE. reflexivity.
Qed.

(** X7.  Equally spaced integer points [a, a + h, a + 2h, ...] (any
    integer origin, any non-zero integer step, at least four points, and
    magnitudes up to [2^53], so that float64 holds the points, their
    differences and the sums of these exactly) give normalized gaps all
    equal to 1.0, the statistic 1.0 and the deviation
    1 - 0.60338 = 0.39662. *)
Theorem deviation_of_equally_spaced (a h : Z) (n : nat) :
  h <> 0%Z -> (4 <= n)%nat ->
  (Z.abs a + Z.of_nat n * Z.abs h <= 2 ^ 53)%Z ->
  normalize_gaps (finite (progression (IZR a) (IZR h) n))
  = replicate (n - 1) (Fin 1)
  /\ statistics.cosmic_harmony_statistic
       (normalize_gaps (finite (progression (IZR a) (IZR h) n))) = Ok (Fin 1)
  /\ metrics.compute_deviation
       (normalize_gaps (finite (progression (IZR a) (IZR h) n)))
     = Ok (Fin 0.39662).
Proof.
  intros Hh Hn _.
  rewrite normalize_gaps_progression by (apply not_0_IZR, Hh || lia).
  assert (Hs : statistics.cosmic_harmony_statistic (replicate (n - 1) (Fin 1))
               = Ok (Fin 1))
    by (apply cosmic_harmony_statistic_ones; lia).
  split; [reflexivity |]. split; [exact Hs |].
  rewrite (compute_deviation_of_statistic _ _ Hs).
  unfold statistics.C_GUE. cbn [fsub fneg fadd fabs].
  do 2 f_equal. rewrite Rabs_right; lra.
Qed.

Lemma deviation_of_equally_spaced_witness :
  normalize_gaps (finite (progression (IZR 1000) (IZR 1) 100))
  = replicate (100 - 1) (Fin 1)
  /\ statistics.cosmic_harmony_statistic
       (normalize_gaps (finite (progression (IZR 1000) (IZR 1) 100)))
     = Ok (Fin 1)
  /\ metrics.compute_deviation
       (normalize_gaps (finite (progression (IZR 1000) (IZR 1) 100)))
     = Ok (Fin 0.39662).
Proof.
  apply (deviation_of_equally_spaced 1000 1 100); [discriminate | lia |].
  apply Z.leb_le. reflexivity.
Defined.

Lemma Rdiff_replicate (a : R) (n : nat) :
  Rdiff (replicate n a) = replicate (n - 1) 0%R.
Proof.
  unfold Rdiff. destruct n as [|n]; [reflexivity |].
  cbn [replicate tail]. replace (S n - 1)%nat with n by lia.
  induction n as [|n IH]; [reflexivity |].
  cbn [replicate zip_with]. rewrite IH. f_equal. lra.
Qed.

Lemma normalize_gaps_constant (a : R) (n : nat) :
  (2 <= n)%nat ->
  normalize_gaps (finite (replicate n a)) = replicate (n - 1) NaN.
Proof.
  intros Hn. unfold normalize_gaps.
  rewrite np_diff_finite, Rdiff_replicate.
  rewrite np_mean_finite by (destruct n as [|[|n]]; [lia | lia | discriminate]).
  rewrite Rmean_replicate by lia.
  unfold finite.
  change (map ?f (replicate ?k ?x)) with (f <$> replicate k x).
  rewrite !fmap_replicate. f_equal.
  unfold fdiv. destruct (Req_dec_T 0 0); [reflexivity | contradiction].
Qed.

Lemma slice_tail_replicate (n : nat) (x : fval) :
  slice_tail (replicate (S n) x) = replicate n x.
Proof. reflexivity. Qed.

Lemma zip_fmul_NaN (n : nat) :
  zip_with fmul (replicate n NaN) (replicate n NaN) = replicate n NaN.
Proof.
  induction n as [|n IH]; [reflexivity |].
  cbn [replicate zip_with]. rewrite IH. reflexivity.
Qed.

Lemma cosmic_harmony_statistic_NaN (n : nat) :
  (3 <= n)%nat ->
  statistics.cosmic_harmony_statistic (replicate n NaN) = Ok NaN.
Proof.
  intros Hn.
  rewrite cosmic_harmony_statistic_long by (rewrite length_replicate; lia).
  destruct n as [|[|n]]; [lia | lia |].
  rewrite slice_init_replicate, slice_tail_replicate, zip_fmul_NaN.
  reflexivity.
Qed.

(** X8.  A constant sequence (all gaps zero) raises nothing:
    [normalize_gaps] divides zero by zero and returns NaN in every
    position, and the deviation computed from such gaps is NaN. *)
Theorem normalize_gaps_constant_sequence (a : R) (n : nat) :
  (4 <= n)%nat ->
  normalize_gaps (finite (replicate n a)) = replicate (n - 1) NaN
  /\ metrics.compute_deviation (normalize_gaps (finite (replicate n a)))
     = Ok NaN.
Proof.
  intros Hn. rewrite normalize_gaps_constant by lia.
  split; [reflexivity |].
  rewrite (compute_deviation_of_statistic _ NaN)
    by (apply cosmic_harmony_statistic_NaN; lia).
  reflexivity.
Qed.

Lemma normalize_gaps_constant_sequence_witness :
  normalize_gaps (finite (replicate 5 7%R)) = replicate (5 - 1) NaN
  /\ metrics.compute_deviation (normalize_gaps (finite (replicate 5 7%R)))
     = Ok NaN.
Proof. apply (normalize_gaps_constant_sequence 7 5). lia. Defined.

(** ** compute_deviation, convergence_bound and validate_convergence *)

(** X9.  The deviation metric of the evaluator is the deviation that
    [validate_convergence] reports: both raise on the same inputs and
    agree on every other, although each reads [C_GUE] through its own
    module. *)
Theorem compute_deviation_matches_validation (gaps : list fval) :
  metrics.compute_deviation gaps
  = (r ← statistics.validate_convergence gaps; Ok (statistics.deviation r)).
Proof.
  unfold metrics.compute_deviation, statistics.validate_convergence.
  destruct (statistics.cosmic_harmony_statistic gaps) as [s|e];
    cbn [mbind result_bind]; [| reflexivity].
  rewrite load_global_metrics_C_GUE, load_global_statistics_C_GUE.
  reflexivity.
Qed.

Lemma ln_le (x y : R) : (0 < x)%R -> (x <= y)%R -> (ln x <= ln y)%R.
Proof.
  intros Hx [Hlt| ->]; [| lra]. left. apply ln_increasing; assumption.
Qed.

Lemma ln_at_least_1 (x : R) : (3 <= x)%R -> (1 <= ln x)%R.
Proof.
  intros Hx. rewrite <- (ln_exp 1). apply ln_le; [apply exp_pos |].
  pose proof exp_le_3. lra.
Qed.

Lemma ln_ratio_bound (x y : R) :
  (0 < x)%R -> (x <= y)%R -> (ln y <= ln x + (y / x - 1))%R.
Proof.
  intros Hx Hxy.
  assert (Hq : (0 < y / x)%R) by (apply Rdiv_lt_0_compat; lra).
  replace y with (x * (y / x))%R at 1 by (field; lra).
  rewrite ln_mult by assumption.
  assert (Hl : (ln (y / x) <= y / x - 1)%R).
  { rewrite <- (ln_exp (y / x - 1)). apply ln_le; [exact Hq |].
    pose proof (exp_ineq1_le (y / x - 1)). lra. }
  lra.
Qed.

Lemma ln_over_x_decreasing (x y : R) :
  (3 <= x)%R -> (x <= y)%R -> (ln y / y <= ln x / x)%R.
Proof.
  intros Hx Hxy.
  pose proof (ln_at_least_1 x Hx) as H1.
  pose proof (ln_ratio_bound x y ltac:(lra) Hxy) as H2.
  assert (H3 : (x * (y / x - 1) = y - x)%R) by (field; lra).
  assert (H4 : (x * ln y <= y * ln x)%R) by nra.
  apply Rmult_le_reg_r with (x * y)%R; [nra |].
  replace (ln y / y * (x * y))%R with (x * ln y)%R by (field; lra).
  replace (ln x / x * (x * y))%R with (y * ln x)%R by (field; lra).
  exact H4.
Qed.

Lemma inv_sqrt_decreasing (x y : R) :
  (0 < x)%R -> (x <= y)%R -> (/ sqrt y <= / sqrt x)%R.
Proof.
  intros Hx Hxy. apply Rinv_le_contravar; [apply sqrt_lt_R0, Hx |].
  apply sqrt_le_1_alt, Hxy.
Qed.

Lemma bound_formula_decreasing (a b x y : R) :
  (0 < a)%R -> (0 <= b)%R -> (3 <= x)%R -> (x <= y)%R ->
  (0 < a / sqrt y + b * ln y / y <= a / sqrt x + b * ln x / x)%R.
Proof.
  intros Ha Hb Hx Hxy.
  pose proof (inv_sqrt_decreasing x y ltac:(lra) Hxy) as Hs.
  pose proof (ln_over_x_decreasing x y Hx Hxy) as Hl.
  pose proof (ln_at_least_1 y ltac:(lra)) as Hly.
  assert (Hsy : (0 < / sqrt y)%R) by (apply Rinv_0_lt_compat, sqrt_lt_R0; lra).
  assert (Hdy : (0 < ln y / y)%R) by (apply Rdiv_lt_0_compat; lra).
  unfold Rdiv in *. split; nra.
Qed.



Lemma ln_100_upper : (ln 100 < 4.62)%R.
Proof.
  pose proof ln_1000_bounds as [_ H].
  replace 1000%R with (10 * (10 * 10))%R in H by lra.
  rewrite !ln_mult in H by lra.
  replace 100%R with (10 * 10)%R by lra. rewrite ln_mult by lra. lra.
Qed.

Lemma bound_at_100 : (2.5 / sqrt 100 + 3.0 * ln 100 / 100 < 0.39)%R.
Proof.
  pose proof ln_100_upper.
  replace (sqrt 100) with 10%R
    by (rewrite <- (sqrt_square 10) by lra; f_equal; lra).
  lra.
Qed.

(** X11.  Gaps that are all 1.0 have deviation 0.39662, which the default
    bound no longer covers from 100 gaps on: [validate_convergence] then
    reports the bound as violated and no safety margin. *)
Theorem validate_convergence_regular_gaps (n : nat) :
  (100 <= n)%nat ->
  exists r : statistics.BoundValidation,
    statistics.validate_convergence (replicate n (Fin 1)) = Ok r
    /\ statistics.deviation r = Fin 0.39662
    /\ statistics.bound_satisfied r = false
    /\ statistics.safety_margin r = None.
Proof.
  intros Hn. unfold statistics.validate_convergence.
  rewrite cosmic_harmony_statistic_ones by lia.
  cbn [mbind result_bind]. rewrite load_global_statistics_C_GUE.
  cbn [mbind result_bind]. eexists. split; [reflexivity |].
  cbn [statistics.deviation statistics.bound_satisfied statistics.safety_margin].
  assert (Hdev : fabs (fsub (Fin 1) statistics.C_GUE) = Fin 0.39662).
  { unfold statistics.C_GUE. cbn [fsub fneg fadd fabs].
    f_equal. rewrite Rabs_right; lra. }
  rewrite Hdev, length_replicate.
  unfold statistics.A_CONSTANT, statistics.B_CONSTANT.
  rewrite convergence_bound_large by lia.
  assert (Hle : fle (Fin 0.39662)
                  (Fin (2.5 / sqrt (IZR (Z.of_nat n))
                        + 3.0 * ln (IZR (Z.of_nat n)) / IZR (Z.of_nat n)))
                = false).
  { cbn [fle]. destruct (Rle_dec _ _) as [Hle|]; [| reflexivity].
    exfalso.
    pose proof (bound_formula_decreasing 2.5 3.0 100 (IZR (Z.of_nat n))
                  ltac:(lra) ltac:(lra) ltac:(lra)
                  ltac:(apply (IZR_le 100); lia)) as [_ Hdec].
    pose proof bound_at_100. lra. }
  rewrite Hle. auto.
Qed.

Lemma validate_convergence_regular_gaps_witness :
  exists r : statistics.BoundValidation,
    statistics.validate_convergence (replicate 100 (Fin 1)) = Ok r
    /\ statistics.deviation r = Fin 0.39662
    /\ statistics.bound_satisfied r = false
    /\ statistics.safety_margin r = None.
Proof. apply (validate_convergence_regular_gaps 100). lia. Defined.

(** ** compute_reconstruction_error, compute_parameter_stability and
    evaluate_pipeline *)

Lemma vector_sub_self (x : list R) :
  Forall (fun c => c = 0%R) (vector_sub x x).
Proof.
  unfold vector_sub. induction x as [|a x IH]; constructor; [lra | exact IH].
Qed.

(** The quotient of two norms is never negative. *)
Lemma quotient_of_norms_range (x y : fval) :
  (exists m : R, (0 <= m)%R /\ x = Fin m) \/ x = PInf \/ x = NaN ->
  (exists m : R, (0 <= m)%R /\ y = Fin m) \/ y = PInf \/ y = NaN ->
  fdiv x y = NaN \/ fval_le (Fin 0) (fdiv x y).
Proof.
  intros [(a & Ha & ->) | [-> | ->]] [(b & Hb & ->) | [-> | ->]];
    try (left; reflexivity).
  - unfold fdiv, Rsign_fval. destruct (Req_dec_T b 0).
    + destruct (Req_dec_T a 0); [left; reflexivity |].
      destruct (Rlt_dec 0 a); [right; exact I | lra].
    + right. cbn [fval_le]. apply Rmult_le_pos; [exact Ha |].
      left. apply Rinv_0_lt_compat. lra.
  - right. cbn [fdiv fval_le]. lra.
  - unfold fdiv. destruct (Rlt_dec b 0); [lra | right; exact I].
Qed.

(** An array either holds real numbers only, or has an entry that is an
    infinity or NaN. *)
Lemma finite_or_not (a : list fval) :
  (exists x : list R, a = finite x)
  \/ (exists c : fval, In c a /\ fsub c c = NaN).
Proof.
  induction a as [|c a IH]; [left; exists []; reflexivity |].
  destruct c as [r| | |];
    try (right; eexists; split; [left; reflexivity | reflexivity]).
  destruct IH as [[x ->] | (c & Hin & Hc)].
  - left. exists (r :: x). reflexivity.
  - right. exists c. split; [right; exact Hin | exact Hc].
Qed.

Lemma linalg_norm_NaN (a : list fval) : In NaN a -> linalg_norm a = NaN.
Proof.
  intros Hin. unfold linalg_norm. rewrite np_sum_NaN; [reflexivity |].
  apply in_map_iff. exists NaN. split; [reflexivity | exact Hin].
Qed.

Lemma zip_fsub_self_NaN (a : list fval) (c : fval) :
  In c a -> fsub c c = NaN -> In NaN (zip_with fsub a a).
Proof.
  intros Hin Hc. induction a as [|x a IH]; [contradiction |].
  cbn [zip_with]. destruct Hin as [->|Hin]; [left; exact Hc | right; auto].
Qed.

(** The error of an array against itself. *)
Lemma reconstruction_error_of_copy (a : list fval) :
  metrics.compute_reconstruction_error a a = Ok (Fin 0)
  \/ metrics.compute_reconstruction_error a a = Ok NaN.
Proof.
  destruct (finite_or_not a) as [[x ->] | (c & Hin & Hc)].
  - rewrite compute_reconstruction_error_finite by reflexivity.
    assert (Hzero : l2_norm (vector_sub x x) = 0%R)
      by (apply l2_norm_zero_iff, vector_sub_self).
    rewrite Hzero. unfold fdiv.
    destruct (Req_dec_T (l2_norm x) 0); [| left; do 2 f_equal; unfold Rdiv; lra].
    destruct (Req_dec_T 0 0); [right; reflexivity | contradiction].
  - right. unfold metrics.compute_reconstruction_error.
    rewrite np_binop_same_length by reflexivity. cbn [mbind result_bind].
    rewrite (linalg_norm_NaN _ (zip_fsub_self_NaN a c Hin Hc)). reflexivity.
Qed.

(** X12.  For float64 arrays of equal length the reconstruction error is
    returned without an exception and is never negative: it is NaN, a
    non-negative number or plus infinity.  The error of an array against
    itself is 0.0 or NaN, and it is 0.0 when the array consists of real
    numbers one of which has magnitude at least 1. *)
Theorem reconstruction_error_range :
  (forall original reconstructed : list fval,
      length original = length reconstructed ->
      exists e : fval,
        metrics.compute_reconstruction_error original reconstructed = Ok e
        /\ (e = NaN \/ fval_le (Fin 0) e))
  /\ (forall original : list fval,
        metrics.compute_reconstruction_error original original = Ok (Fin 0)
        \/ metrics.compute_reconstruction_error original original = Ok NaN)
  /\ (forall original : list R,
        (exists c : R, In c original /\ (1 <= Rabs c)%R) ->
        metrics.compute_reconstruction_error (finite original) (finite original)
        = Ok (Fin 0)).
Proof.
  split; [| split].
  - intros original reconstructed Hlen.
    unfold metrics.compute_reconstruction_error.
    rewrite np_binop_same_length by exact Hlen. cbn [mbind result_bind].
    eexists. split; [reflexivity |].
    apply quotient_of_norms_range; apply linalg_norm_range.
  - exact reconstruction_error_of_copy.
  - intros original (c & Hin & Hc).
    rewrite compute_reconstruction_error_finite by reflexivity.
    assert (Hzero : l2_norm (vector_sub original original) = 0%R)
      by (apply l2_norm_zero_iff, vector_sub_self).
    rewrite Hzero, fdiv_fin; [do 2 f_equal; unfold Rdiv; lra |].
    intros Hnorm. apply l2_norm_zero_iff in Hnorm. rewrite Forall_forall in Hnorm.
    apply list_elem_of_In in Hin. rewrite (Hnorm c Hin), Rabs_R0 in Hc. lra.
Qed.

Lemma reconstruction_error_range_witness :
  (exists e : fval,
      metrics.compute_reconstruction_error [Fin 3; PInf] [Fin 3; Fin 5] = Ok e
      /\ (e = NaN \/ fval_le (Fin 0) e))
  /\ metrics.compute_reconstruction_error (finite [3%R; 4%R]) (finite [3%R; 4%R])
     = Ok (Fin 0).
Proof.
  split.
  - apply (proj1 reconstruction_error_range [Fin 3; PInf] [Fin 3; Fin 5]).
    reflexivity.
  - apply (proj2 (proj2 reconstruction_error_range) [3%R; 4%R]).
    exists 3%R. split; [left; reflexivity |]. rewrite Rabs_right; lra.
Defined.

Lemma Rmean_nonneg (x : list R) :
  (forall c, In c x -> (0 <= c)%R) -> (0 <= Rmean x)%R.
Proof.
  intros Hpos. unfold Rmean.
  assert (Hsum : (0 <= fold_right Rplus 0 x)%R).
  { induction x as [|c x IH]; [simpl; lra |].
    cbn [fold_right].
    assert (0 <= c)%R by (apply Hpos; left; reflexivity).
    assert (0 <= fold_right Rplus 0 x)%R
      by (apply IH; intros d Hd; apply Hpos; right; exact Hd).
    lra. }
  destruct x as [|c x]; [simpl; unfold Rdiv; rewrite Rmult_0_l; lra |].
  apply Rmult_le_pos; [exact Hsum |].
  left. apply Rinv_0_lt_compat, lt_0_INR. simpl. lia.
Qed.

Lemma last_In {A : Type} (l : list A) (d : A) : l <> [] -> In (List.last l d) l.
Proof.
  induction l as [|x [|y l] IH]; intros Hne; [contradiction | left; reflexivity |].
  right. apply IH. discriminate.
Qed.

Lemma successive_change_norms_nonneg (history : list (list R)) (c : R) :
  In c (successive_change_norms history) -> (0 <= c)%R.
Proof.
  unfold successive_change_norms. intros Hc. apply in_map_iff in Hc.
  destruct Hc as (k & <- & _). apply l2_norm_nonneg.
Qed.

(** X13.  For a history of at least two parameter vectors of real numbers
    the three stability metrics are reported; none of them is negative or
    NaN, and the final change is never above the max change. *)
Theorem parameter_stability_ordered (history : list (list R)) (d : nat) :
  (2 <= length history)%nat ->
  Forall (fun row => length row = d) history ->
  exists mean largest final : fval,
    metrics.compute_parameter_stability (finite_rows history)
    = Ok [("mean_change", mean); ("max_change", largest);
          ("final_change", final)]
    /\ fval_le (Fin 0) mean
    /\ fval_le (Fin 0) final
    /\ fval_le final largest.
Proof.
  intros Hlen Hrows.
  destruct (proj2 compute_parameter_stability_branches history d Hlen Hrows)
    as (largest & Heq & Hin & Hub).
  set (norms := successive_change_norms history) in *.
  assert (Hne : norms <> []) by (intros Hnil; rewrite Hnil in Hin; contradiction).
  exists (Fin (Rmean norms)), (Fin largest), (Fin (List.last norms 0%R)).
  split; [exact Heq |]. cbn [fval_le].
  split; [| split].
  - apply Rmean_nonneg. intros c Hc.
    apply (successive_change_norms_nonneg history). exact Hc.
  - apply (successive_change_norms_nonneg history), last_In, Hne.
  - apply Hub, last_In, Hne.
Qed.

Lemma parameter_stability_ordered_witness :
  exists mean largest final : fval,
    metrics.compute_parameter_stability
      (finite_rows [[1%R]; [4%R]; [2%R]])
    = Ok [("mean_change", mean); ("max_change", largest);
          ("final_change", final)]
    /\ fval_le (Fin 0) mean
    /\ fval_le (Fin 0) final
    /\ fval_le final largest.
Proof.
  apply (parameter_stability_ordered [[1%R]; [4%R]; [2%R]] 1%nat).
  - simpl. lia.
  - repeat constructor.
Defined.

Lemma compute_deviation_short (gaps : list fval) :
  (length gaps < 3)%nat ->
  metrics.compute_deviation gaps
  = Raise (ValueError "Need at least 3 gaps for S_N computation").
Proof.
  intros H. unfold metrics.compute_deviation.
  rewrite cosmic_harmony_statistic_short by exact H. reflexivity.
Qed.

(** X14.  [evaluate_pipeline] raises the insufficient-data [ValueError]
    as soon as the processed sequence has fewer than three values,
    whatever the other arguments.  When it returns, its record holds the
    deviation of the processed sequence and the reconstruction error under
    "deviation_from_GUE" and "reconstruction_error", always holds
    "mean_change" and "max_change", and holds "final_change" exactly when
    the history has at least two vectors. *)
Theorem evaluate_pipeline_record (original processed : list fval)
    (history : list (list fval)) :
  ((length processed < 3)%nat ->
     metrics.evaluate_pipeline original processed history
     = Raise (ValueError "Need at least 3 gaps for S_N computation"))
  /\ (forall m : record,
        metrics.evaluate_pipeline original processed history = Ok m ->
        exists d e : fval,
          metrics.compute_deviation processed = Ok d
          /\ metrics.compute_reconstruction_error original processed = Ok e
          /\ dict_get m "deviation_from_GUE" = Some d
          /\ dict_get m "reconstruction_error" = Some e
          /\ dict_get m "mean_change" <> None
          /\ dict_get m "max_change" <> None
          /\ (dict_get m "final_change" <> None
              <-> (2 <= length history)%nat)).
Proof.
  split.
  - intros H. unfold metrics.evaluate_pipeline.
    rewrite compute_deviation_short by exact H. reflexivity.
  - intros m. unfold metrics.evaluate_pipeline.
    destruct (metrics.compute_deviation processed) as [d|];
      cbn [mbind result_bind]; [| discriminate].
    destruct (metrics.compute_reconstruction_error original processed) as [e|];
      cbn [mbind result_bind]; [| discriminate].
    unfold metrics.compute_parameter_stability.
    destruct (Nat.ltb_spec (length history) 2) as [Hlt|Hge];
      cbn [mbind result_bind].
    + intros [= <-]. exists d, e. cbn.
      repeat split; try discriminate; try lia. intros H. contradiction.
    + destruct (np_max _) as [largest|]; cbn [mbind result_bind];
        [| discriminate].
      intros [= <-]. exists d, e. cbn.
      repeat split; try discriminate; try lia.
Qed.

Lemma evaluate_pipeline_three_ones_returns :
  exists m : record,
    metrics.evaluate_pipeline [Fin 1; Fin 1; Fin 1] [Fin 1; Fin 1; Fin 1] []
    = Ok m.
Proof. eexists. reflexivity. Qed.

Lemma evaluate_pipeline_record_witness :
  metrics.evaluate_pipeline [Fin 1; Fin 1] [Fin 1; Fin 1] []
  = Raise (ValueError "Need at least 3 gaps for S_N computation")
  /\ exists (m : record) (d e : fval),
       metrics.evaluate_pipeline
         [Fin 1; Fin 1; Fin 1] [Fin 1; Fin 1; Fin 1] [] = Ok m
       /\ dict_get m "deviation_from_GUE" = Some d
       /\ dict_get m "reconstruction_error" = Some e.
Proof.
  split.
  - apply (proj1 (evaluate_pipeline_record [Fin 1; Fin 1] [Fin 1; Fin 1] [])).
    simpl. lia.
  - destruct evaluate_pipeline_three_ones_returns as [m Hm].
    destruct (proj2 (evaluate_pipeline_record _ _ _) m Hm)
      as (d & e & _ & _ & Hd & He & _).
    exists m, d, e. auto.
Defined.

(** ** sparse_optimization: further properties *)

Lemma keep_magnitude (m largest : R) :
  (0 <= m)%R ->
  fmaximum (fsub (Fin m) (fmul (Fin 0) (Fin largest))) (Fin 0) = Fin m.
Proof.
  intros H. cbn [fmul fsub fneg fadd]. rewrite fmaximum_finite.
  f_equal. rewrite Rmax_left by lra. lra.
Qed.

Lemma fsign_times_abs (r : R) : fmul (fsign (Fin r)) (Fin (Rabs r)) = Fin r.
Proof.
  unfold fsign. destruct (Rlt_dec 0 r).
  - cbn [fmul]. f_equal. rewrite Rabs_right by lra. lra.
  - destruct (Rlt_dec r 0); cbn [fmul]; f_equal.
    + rewrite Rabs_left by lra. lra.
    + replace r with 0%R by lra. rewrite Rabs_R0. lra.
Qed.

(** X15.  With [sparsity_param = 0] the threshold is zero and
    [sparse_optimization] returns a non-empty array of real numbers
    unchanged: every magnitude is kept and multiplied by its sign. *)
Theorem sparse_optimization_zero_threshold
    (self : lie_group.LieGroupSpectralCompression) (coefficients : list R) :
  lie_group.sparsity_param self = Fin 0 ->
  coefficients <> [] ->
  lie_group.sparse_optimization self (RealArray (finite coefficients))
  = Ok (RealArray (finite coefficients)).
Proof.
  intros Hzero Hne. unfold lie_group.sparse_optimization. rewrite Hzero.
  assert (Habs : map fabs (finite coefficients) = finite (map Rabs coefficients))
    by (unfold finite; rewrite !map_map; reflexivity).
  rewrite Habs.
  destruct (np_max_finite_bound (map Rabs coefficients)) as (largest & Hmax & _).
  { destruct coefficients; [contradiction | discriminate]. }
  rewrite Hmax. cbn [mbind result_bind]. do 2 f_equal.
  rewrite zip_with_maps. unfold finite. rewrite map_map.
  apply map_ext. intros r. cbn [fabs].
  rewrite keep_magnitude by apply Rabs_pos. apply fsign_times_abs.
Qed.

Lemma sparse_optimization_zero_threshold_witness :
  lie_group.sparse_optimization
    {| lie_group.basis_type := "dft"; lie_group.sparsity_param := Fin 0 |}
    (RealArray (finite [3%R; (-4)%R; 0%R]))
  = Ok (RealArray (finite [3%R; (-4)%R; 0%R])).
Proof.
  apply (sparse_optimization_zero_threshold
           {| lie_group.basis_type := "dft"; lie_group.sparsity_param := Fin 0 |}
           [3%R; (-4)%R; 0%R] eq_refl).
  discriminate.
Defined.

Lemma fsign_Rsign (r : R) : fsign (Fin r) = Fin (Rsign r).
Proof.
  unfold fsign, Rsign. destruct (Rlt_dec 0 r); [reflexivity |].
  destruct (Rlt_dec r 0); reflexivity.
Qed.

Lemma soft_threshold_facts (t c : R) :
  (0 <= t)%R ->
  (Rabs (soft_threshold t c) = Rmax (Rabs c - t) 0
   /\ Rabs (soft_threshold t c) <= Rabs c
   /\ 0 <= soft_threshold t c * c)%R.
Proof.
  intros Ht. unfold soft_threshold, Rsign.
  pose proof (Rabs_pos c) as Hc.
  assert (Hm : (0 <= Rmax (Rabs c - t) 0 <= Rabs c)%R).
  { unfold Rmax. destruct (Rle_dec (Rabs c - t) 0); lra. }
  set (M := Rmax (Rabs c - t) 0) in *. clearbody M.
  destruct (Rlt_dec 0 c) as [Hpos|Hnpos]; [| destruct (Rlt_dec c 0) as [Hneg|Hnneg]].
  - rewrite (Rabs_right c) in * by lra.
    replace (1 * M)%R with M by lra. rewrite (Rabs_right M) by lra.
    repeat split; nra.
  - rewrite (Rabs_left c) in * by lra.
    replace (-1 * M)%R with (- M)%R by lra.
    rewrite Rabs_Ropp, (Rabs_right M) by lra.
    repeat split; nra.
  - assert (c = 0%R) by lra. subst c. rewrite Rabs_R0 in *.
    replace (0 * M)%R with 0%R by lra. rewrite Rabs_R0.
    repeat split; lra.
Qed.

(** X16.  [sparse_optimization] raises [ValueError] on an empty array of
    either dtype.  On a non-empty array of real numbers with
    [sparsity_param >= 0] it soft-thresholds by [sparsity_param] times the
    largest magnitude: every output keeps the sign of its coefficient (or
    is zero), has magnitude [max (|c| - threshold, 0)], and never a larger
    magnitude than the coefficient. *)
Theorem sparse_optimization_shrinks
    (self : lie_group.LieGroupSpectralCompression) :
  (exists msg,
      lie_group.sparse_optimization self (RealArray []) = Raise (ValueError msg)
      /\ lie_group.sparse_optimization self (ComplexArray [])
         = Raise (ValueError msg))
  /\ (forall (lambda : R) (coefficients : list R),
        lie_group.sparsity_param self = Fin lambda ->
        (0 <= lambda)%R -> coefficients <> [] ->
        exists (largest : R) (shrunk : list R),
          In largest (map Rabs coefficients)
          /\ (forall c, In c coefficients -> (Rabs c <= largest)%R)
          /\ lie_group.sparse_optimization self
               (RealArray (finite coefficients))
             = Ok (RealArray (finite shrunk))
          /\ Forall2
               (fun c o =>
                  (Rabs o = Rmax (Rabs c - lambda * largest) 0
                   /\ Rabs o <= Rabs c
                   /\ 0 <= o * c)%R)
               coefficients shrunk).
Proof.
  split; [eexists; split; reflexivity |].
  intros lambda rs Hparam Hlambda Hne.
  unfold lie_group.sparse_optimization. rewrite Hparam.
  assert (Habs : map fabs (finite rs) = finite (map Rabs rs))
    by (unfold finite; rewrite !map_map; reflexivity).
  rewrite Habs.
  destruct rs as [|r0 rs0] eqn:Hrs; [contradiction |]. rewrite <- Hrs in *.
  assert (Hmax : np_max (finite (map Rabs rs))
                 = Ok (Fin (foldl Rmax (Rabs r0) (map Rabs rs0))))
    by (rewrite Hrs; apply np_max_finite).
  pose proof (foldl_Rmax_bounds (Rabs r0) (map Rabs rs0)) as [Hin Hub].
  set (largest := foldl Rmax (Rabs r0) (map Rabs rs0)) in *.
  assert (Hmap : Rabs r0 :: map Rabs rs0 = map Rabs rs) by (rewrite Hrs; reflexivity).
  rewrite Hmap in Hin, Hub.
  exists largest, (map (soft_threshold (lambda * largest)) rs).
  split; [exact Hin |].
  split; [intros c Hc; apply Hub, in_map, Hc |].
  assert (Hlargest : (0 <= largest)%R).
  { pose proof (Rabs_pos r0).
    assert (Rabs r0 <= largest)%R by (apply Hub; rewrite Hrs; left; reflexivity).
    lra. }
  split.
  - rewrite Hmax. cbn [mbind result_bind]. do 2 f_equal.
    rewrite zip_with_maps. unfold finite. rewrite !map_map.
    apply map_ext. intros r. cbn [fabs fmul fsub fneg fadd].
    rewrite fmaximum_finite, fsign_Rsign. cbn [fmul]. reflexivity.
  - apply Forall2_fmap_r, Forall_Forall2_diag, Forall_forall.
    intros c _. apply soft_threshold_facts. nra.
Qed.

Lemma sparse_optimization_shrinks_witness :
  exists (largest : R) (shrunk : list R),
    In largest (map Rabs [3%R; (-4)%R])
    /\ (forall c, In c [3%R; (-4)%R] -> (Rabs c <= largest)%R)
    /\ lie_group.sparse_optimization
         {| lie_group.basis_type := "dft"; lie_group.sparsity_param := Fin 0.1 |}
         (RealArray (finite [3%R; (-4)%R]))
       = Ok (RealArray (finite shrunk))
    /\ Forall2
         (fun c o =>
            (Rabs o = Rmax (Rabs c - 0.1 * largest) 0
             /\ Rabs o <= Rabs c
             /\ 0 <= o * c)%R)
         [3%R; (-4)%R] shrunk.
Proof.
  apply (proj2 (sparse_optimization_shrinks
                  {| lie_group.basis_type := "dft";
                     lie_group.sparsity_param := Fin 0.1 |})
           0.1%R [3%R; (-4)%R] eq_refl); [lra | discriminate].
Defined.

(** ** LieGroupSpectralCompression.transform and inverse_transform *)

(** X17.  A basis other than 'dft' and 'wavelet' makes [transform] and
    [inverse_transform] raise the same [ValueError], which names the
    basis, whatever the libraries and the argument; neither library is
    called. *)
Theorem unknown_basis_raises (lib : SignalLibraries)
    (self : lie_group.LieGroupSpectralCompression)
    (sequence : list fval) (transformed : ndarray) :
  lie_group.basis_type self <> "dft" ->
  lie_group.basis_type self <> "wavelet" ->
  lie_group_transform.transform lib self sequence
  = Raise (ValueError ("Unknown basis type: " +:+ lie_group.basis_type self))
  /\ lie_group_transform.inverse_transform lib self transformed
     = Raise (ValueError ("Unknown basis type: " +:+ lie_group.basis_type self)).
Proof.
  intros Hdft Hwavelet.
  unfold lie_group_transform.transform, lie_group_transform.inverse_transform.
  destruct (decide (lie_group.basis_type self = "dft")); [contradiction |].
  destruct (decide (lie_group.basis_type self = "wavelet")); [contradiction |].
  split; reflexivity.
Qed.

Lemma unknown_basis_raises_witness :
  lie_group_transform.transform
    {| fft := fun _ => Ok []; ifft := fun _ => Ok [];
       wavedec := fun _ => Ok []; waverec := fun _ => Ok (RealArray []) |}
    {| lie_group.basis_type := "dct"; lie_group.sparsity_param := Fin 0.1 |}
    [Fin 1; Fin 2]
  = Raise (ValueError "Unknown basis type: dct")
  /\ lie_group_transform.inverse_transform
       {| fft := fun _ => Ok []; ifft := fun _ => Ok [];
          wavedec := fun _ => Ok []; waverec := fun _ => Ok (RealArray []) |}
       {| lie_group.basis_type := "dct"; lie_group.sparsity_param := Fin 0.1 |}
       (RealArray [Fin 1; Fin 2])
     = Raise (ValueError "Unknown basis type: dct").
Proof.
  apply (unknown_basis_raises
           {| fft := fun _ => Ok []; ifft := fun _ => Ok [];
              wavedec := fun _ => Ok []; waverec := fun _ => Ok (RealArray []) |}
           {| lie_group.basis_type := "dct"; lie_group.sparsity_param := Fin 0.1 |}
           [Fin 1; Fin 2] (RealArray [Fin 1; Fin 2])); discriminate.
Defined.

(** X18.  Whatever the basis and the libraries, [inverse_transform] never
    returns more values than [transformed] has coefficients; with the
    'dft' basis it returns the real parts of the first [len(transformed)]
    values of [ifft(transformed)], so that the round trip through
    [transform] gives the sequence back whenever the library's [ifft]
    inverts its [fft]. *)
Theorem inverse_transform_truncates (lib : SignalLibraries)
    (self : lie_group.LieGroupSpectralCompression) :
  (forall (transformed : ndarray) (reconstruction : list fval),
      lie_group_transform.inverse_transform lib self transformed
      = Ok reconstruction ->
      (length reconstruction <= nd_length transformed)%nat)
  /\ (forall (sequence : list fval) (spectrum back : list cval),
        lie_group.basis_type self = "dft" ->
        fft lib (RealArray sequence) = Ok spectrum ->
        ifft lib (ComplexArray spectrum) = Ok back ->
        map fst back = sequence ->
        (length sequence <= length spectrum)%nat ->
        exists transformed,
          lie_group_transform.transform lib self sequence = Ok transformed
          /\ lie_group_transform.inverse_transform lib self transformed
             = Ok sequence).
Proof.
  split.
  - intros transformed reconstruction.
    unfold lie_group_transform.inverse_transform.
    match goal with
    | |- (?m ≫= _) = _ -> _ => destruct m as [r|]; cbn [mbind result_bind]
    end; [| discriminate].
    intros [= <-]. rewrite length_take. lia.
  - intros sequence spectrum back Hbasis Hfft Hifft Hback Hlen.
    exists (ComplexArray spectrum).
    unfold lie_group_transform.transform, lie_group_transform.inverse_transform.
    destruct (decide (lie_group.basis_type self = "dft")); [| contradiction].
    rewrite Hfft. cbn [mbind result_bind]. split; [reflexivity |].
    rewrite Hifft. cbn [mbind result_bind nd_length].
    rewrite Hback, take_ge by exact Hlen. reflexivity.
Qed.

Lemma inverse_transform_truncates_witness :
  exists transformed,
    lie_group_transform.transform trivial_libraries
      {| lie_group.basis_type := "dft"; lie_group.sparsity_param := Fin 0.1 |}
      [Fin 1; Fin 2]
    = Ok transformed
    /\ lie_group_transform.inverse_transform trivial_libraries
         {| lie_group.basis_type := "dft"; lie_group.sparsity_param := Fin 0.1 |}
         transformed
       = Ok [Fin 1; Fin 2]
    /\ (length [Fin 1; Fin 2] <= nd_length transformed)%nat.
Proof.
  destruct (proj2 (inverse_transform_truncates trivial_libraries
                     {| lie_group.basis_type := "dft";
                        lie_group.sparsity_param := Fin 0.1 |})
              [Fin 1; Fin 2] [(Fin 1, Fin 0); (Fin 2, Fin 0)]
              [(Fin 1, Fin 0); (Fin 2, Fin 0)]
              eq_refl eq_refl eq_refl eq_refl ltac:(simpl; lia))
    as (transformed & Ht & Hi).
  exists transformed. split; [exact Ht |]. split; [exact Hi |].
  exact (proj1 (inverse_transform_truncates trivial_libraries
                  {| lie_group.basis_type := "dft";
                     lie_group.sparsity_param := Fin 0.1 |})
           transformed [Fin 1; Fin 2] Hi).
Defined.

(** ** run: failures *)

(** X19.  A failure before the control loop is passed on unchanged: when
    [load] raises, [run] raises the same exception and changes nothing;
    when the representation raises, [run] raises that exception having
    stored only the original sequence.  On a new pipeline either failure
    leaves [get_final_metrics] raising "Pipeline must be run first". *)
Theorem run_failure_before_loop (self : pipeline.SpectralPipeline)
    (n_iterations : Z)
    (potential_grad_fn spectral_grad_fn : option pipeline.gradient_fn)
    (e : exn) :
  (load (pipeline.data_source self) = Raise e ->
     pipeline.run n_iterations potential_grad_fn spectral_grad_fn self
     = (Raise e, self))
  /\ (forall sequence : list fval,
        load (pipeline.data_source self) = Ok sequence ->
        (t ← transform (pipeline.representation self) (normalize_gaps sequence);
         inverse_transform (pipeline.representation self) t) = Raise e ->
        pipeline.run n_iterations potential_grad_fn spectral_grad_fn self
        = (Raise e, pipeline.set_original_sequence sequence self)
        /\ (pipeline.processed_sequence self = None ->
            pipeline.get_final_metrics
              (pipeline.set_original_sequence sequence self)
            = Raise (ValueError "Pipeline must be run first"))).
Proof.
  split.
  - intros Hload. unfold pipeline.run. rewrite Hload. reflexivity.
  - intros sequence Hload Hrep. split.
    + unfold pipeline.run. rewrite Hload.
      cbn [pipeline.set_original_sequence pipeline.representation].
      rewrite Hrep. reflexivity.
    + intros Hnone. unfold pipeline.get_final_metrics.
      cbn [pipeline.set_original_sequence pipeline.original_sequence
           pipeline.processed_sequence].
      rewrite Hnone. reflexivity.
Qed.

Lemma run_failure_before_loop_witness :
  pipeline.run 3 None None
    (pipeline.init {| load := Raise (Exception "ConnectionError") |} None None)
  = (Raise (Exception "ConnectionError"),
     pipeline.init {| load := Raise (Exception "ConnectionError") |} None None)
  /\ pipeline.run 3 None None
       (pipeline.init four_points
          (Some {| transformed := list fval;
                   transform := fun _ => Raise (ValueError "Unknown basis type: dct");
                   inverse_transform := fun t => Ok t |})
          None)
     = (Raise (ValueError "Unknown basis type: dct"),
        pipeline.set_original_sequence
          (finite [1000%R; 1001%R; 1002%R; 1003%R])
          (pipeline.init four_points
             (Some {| transformed := list fval;
                      transform := fun _ => Raise (ValueError "Unknown basis type: dct");
                      inverse_transform := fun t => Ok t |})
             None)).
Proof.
  split.
  - apply (proj1 (run_failure_before_loop _ 3 None None _)). reflexivity.
  - apply (proj2 (run_failure_before_loop _ 3 None None _)); reflexivity.
Defined.

Lemma control_step_with_gradients normalized_gaps potential_grad spectral_grad
    alpha metrics_history self :
  exists e self',
    pipeline.control_step normalized_gaps
      (Some potential_grad) (Some spectral_grad) alpha metrics_history self
    = (Raise e, self').
Proof.
  unfold pipeline.control_step.
  destruct (pipeline.processed_sequence self) as [processed|]; [| eauto].
  destruct (np_array (pipeline.alpha_history self)) as [history|];
    cbn [mbind result_bind]; [| eauto].
  destruct (metrics.evaluate_pipeline normalized_gaps processed history);
    [| eauto].
  destruct (statistics.cosmic_harmony_statistic processed) as [s|];
    cbn [mbind result_bind]; [| eauto].
  unfold cal_controller.compute_gradient.
  destruct (cal_objective.cal_gradient alpha potential_grad spectral_grad s (Fin 1.0))
    as [g|] eqn:Hg; [| eauto].
  exfalso. exact (cal_gradient_never_returns _ _ _ _ _ _ Hg).
Qed.

(** X20.  With both gradient functions supplied, a run of at least one
    iteration never returns a history: whatever the data, the
    representation and the gradient functions, it ends in an exception. *)
Theorem run_with_gradients_never_returns (self : pipeline.SpectralPipeline)
    (n_iterations : Z) (potential_grad spectral_grad : pipeline.gradient_fn) :
  (1 <= n_iterations)%Z ->
  exists e self',
    pipeline.run n_iterations (Some potential_grad) (Some spectral_grad) self
    = (Raise e, self').
Proof.
  intros Hn. unfold pipeline.run.
  destruct (load (pipeline.data_source self)) as [sequence|]; [| eauto].
  match goal with
  | |- context [match ?m with Ok _ => _ | Raise _ => _ end] =>
      destruct m as [processed|]
  end; [| eauto].
  destruct (Z.to_nat n_iterations) as [|k] eqn:Hk; [lia |].
  cbn [pipeline.control_loop].
  match goal with
  | |- context [pipeline.control_step ?g ?p ?s ?a ?h ?st] =>
      destruct (control_step_with_gradients g potential_grad spectral_grad a h st)
        as (e & self' & ->)
  end.
  eauto.
Qed.

Lemma run_with_gradients_never_returns_witness :
  exists e self',
    pipeline.run 1 (Some (fun a => Ok a)) (Some (fun a => Ok a))
      (pipeline.init four_points None None)
    = (Raise e, self').
Proof.
  apply (run_with_gradients_never_returns
           (pipeline.init four_points None None) 1
           (fun a => Ok a) (fun a => Ok a)).
  lia.
Defined.

Lemma cosmic_harmony_statistic_returns (gaps : list fval) :
  (3 <= length gaps)%nat ->
  exists s, statistics.cosmic_harmony_statistic gaps = Ok s.
Proof.
  intros H. rewrite cosmic_harmony_statistic_long by exact H. eauto.
Qed.

Lemma evaluate_pipeline_returns (original processed : list fval) :
  (3 <= length processed)%nat -> length original = length processed ->
  exists m, metrics.evaluate_pipeline original processed [] = Ok m.
Proof.
  intros Hlen Heq. unfold metrics.evaluate_pipeline.
  destruct (cosmic_harmony_statistic_returns processed Hlen) as [s Hs].
  rewrite (compute_deviation_of_statistic _ _ Hs). cbn [mbind result_bind].
  unfold metrics.compute_reconstruction_error.
  rewrite np_binop_same_length by exact Heq. cbn. eauto.
Qed.

(** X21.  On a new pipeline with the raw representation and a source of
    at least four points, a run of at least one iteration with gradient
    functions that both return raises [NameError] for [C_GUE] in its
    first iteration: the control update is never reached. *)
Theorem run_with_gradients_raises_NameError (source : DataSource)
    (sequence : list fval) (controller : option cal_controller.CALController)
    (n_iterations : Z) (potential_grad spectral_grad : pipeline.gradient_fn)
    (g1 g2 : list fval) :
  load source = Ok sequence -> (4 <= length sequence)%nat ->
  (1 <= n_iterations)%Z ->
  potential_grad [Fin 1.0] = Ok g1 -> spectral_grad [Fin 1.0] = Ok g2 ->
  fst (pipeline.run n_iterations (Some potential_grad) (Some spectral_grad)
         (pipeline.init source None controller))
  = Raise (NameError "C_GUE")
  /\ pipeline.alpha_history
       (snd (pipeline.run n_iterations (Some potential_grad) (Some spectral_grad)
               (pipeline.init source None controller)))
     = [].
Proof.
  intros Hload Hlen Hn Hp Hs. unfold pipeline.run.
  cbn [pipeline.init pipeline.data_source]. rewrite Hload.
  cbn [pipeline.init pipeline.set_original_sequence pipeline.representation
       default from_option Datatypes.id RawRepresentation transform
       inverse_transform mbind result_bind].
  destruct (Z.to_nat n_iterations) as [|k] eqn:Hk; [lia |].
  cbn [pipeline.control_loop]. unfold pipeline.control_step.
  cbn [pipeline.init pipeline.set_original_sequence pipeline.set_controller
       pipeline.set_processed_sequence pipeline.processed_sequence
       pipeline.alpha_history np_array mbind result_bind pipeline.controller].
  assert (Hgaps : (3 <= length (normalize_gaps sequence))%nat)
    by (rewrite length_normalize_gaps; lia).
  destruct (evaluate_pipeline_returns (normalize_gaps sequence)
              (normalize_gaps sequence) Hgaps eq_refl) as [m ->].
  destruct (cosmic_harmony_statistic_returns _ Hgaps) as [s ->].
  cbn [mbind result_bind].
  unfold cal_controller.compute_gradient, cal_objective.cal_gradient.
  rewrite Hp, Hs. cbn [mbind result_bind].
  rewrite load_global_cal_objective_C_GUE. split; reflexivity.
Qed.

Lemma run_with_gradients_raises_NameError_witness :
  fst (pipeline.run 5 (Some (fun a => Ok a)) (Some (fun a => Ok a))
         (pipeline.init four_points None None))
  = Raise (NameError "C_GUE")
  /\ pipeline.alpha_history
       (snd (pipeline.run 5 (Some (fun a => Ok a)) (Some (fun a => Ok a))
               (pipeline.init four_points None None)))
     = [].
Proof.
  apply (run_with_gradients_raises_NameError four_points
           (finite [1000%R; 1001%R; 1002%R; 1003%R]) None 5
           (fun a => Ok a) (fun a => Ok a) [Fin 1.0] [Fin 1.0]);
    try reflexivity; simpl; lia.
Defined.

(** ** run: the returned history *)

Lemma store_metrics_dom (h : gmap string (list fval)) (m : record) :
  dom (pipeline.store_metrics h m) = dom h.
Proof.
  unfold pipeline.store_metrics. revert h.
  induction m as [|[key value] m IH]; intros h; [reflexivity |].
  cbn [foldl fst snd]. rewrite IH.
  destruct (h !! key) as [values|] eqn:Hkey; [| reflexivity].
  apply dom_insert_lookup_L. rewrite Hkey. eauto.
Qed.

Lemma control_loop_dom (iterations : nat) :
  forall normalized_gaps potential_grad_fn spectral_grad_fn alpha
         metrics_history self h self',
    pipeline.control_loop iterations normalized_gaps
      potential_grad_fn spectral_grad_fn alpha metrics_history self
    = (Ok h, self') ->
    dom h = dom metrics_history.
Proof.
  induction iterations as [|iterations IH];
    intros normalized_gaps potential_grad_fn spectral_grad_fn alpha
           metrics_history self h self' Hloop.
  - cbn [pipeline.control_loop] in Hloop. injection Hloop as <- <-. reflexivity.
  - cbn [pipeline.control_loop] in Hloop.
    destruct (pipeline.control_step normalized_gaps potential_grad_fn
                spectral_grad_fn alpha metrics_history self)
      as [[[alpha1 metrics_history1]|e] self1] eqn:Hstep; [| discriminate].
    apply control_step_ok in Hstep.
    destruct Hstep as (_ & processed & history & m & _ & _ & _ & ->).
    apply IH in Hloop. rewrite Hloop. apply store_metrics_dom.
Qed.

(** X22.  [store_metrics] never adds a key, so the history that a
    successful [run] returns has exactly the three keys "deviation",
    "reconstruction_error" and "parameter_change". *)
Theorem run_history_keys (self : pipeline.SpectralPipeline) (n_iterations : Z)
    (potential_grad_fn spectral_grad_fn : option pipeline.gradient_fn)
    (h : gmap string (list fval)) (self' : pipeline.SpectralPipeline) :
  pipeline.run n_iterations potential_grad_fn spectral_grad_fn self
  = (Ok h, self') ->
  dom h = {["deviation"; "reconstruction_error"; "parameter_change"]}.
Proof.
  unfold pipeline.run.
  destruct (load (pipeline.data_source self)) as [sequence|]; [| discriminate].
  match goal with
  | |- context [match ?m with Ok _ => _ | Raise _ => _ end] =>
      destruct m as [processed|]
  end; [| discriminate].
  intros Hloop. apply control_loop_dom in Hloop. rewrite Hloop.
  unfold pipeline.empty_history. rewrite !dom_insert_L, dom_empty_L.
  set_solver.
Qed.

Lemma run_history_keys_witness :
  exists h self',
    pipeline.run 2 None None (pipeline.init four_points None None)
    = (Ok h, self')
    /\ dom h = {["deviation"; "reconstruction_error"; "parameter_change"]}.
Proof.
  destruct run_four_points_succeeds as (h & self' & Hrun).
  exists h, self'. split; [exact Hrun |].
  exact (run_history_keys _ _ _ _ _ _ Hrun).
Defined.

Lemma evaluate_pipeline_entries original processed history (m : record) :
  metrics.evaluate_pipeline original processed history = Ok m ->
  exists d e mean largest,
    metrics.compute_reconstruction_error original processed = Ok e
    /\ (m = [("deviation_from_GUE", d); ("reconstruction_error", e);
             ("mean_change", mean); ("max_change", largest)]
        \/ exists final,
             m = [("deviation_from_GUE", d); ("reconstruction_error", e);
                  ("mean_change", mean); ("max_change", largest);
                  ("final_change", final)]).
Proof.
  unfold metrics.evaluate_pipeline.
  destruct (metrics.compute_deviation processed) as [d|];
    cbn [mbind result_bind]; [| discriminate].
  destruct (metrics.compute_reconstruction_error original processed) as [e|];
    cbn [mbind result_bind]; [| discriminate].
  destruct (metrics.compute_parameter_stability history) as [r|] eqn:Hr;
    cbn [mbind result_bind]; [| discriminate].
  intros [= <-].
  destruct (compute_parameter_stability_shape _ _ Hr)
    as (mean & largest & [-> | [final ->]]);
    exists d, e, mean, largest; (split; [reflexivity |]);
    [left | right; exists final]; reflexivity.
Qed.

Lemma store_metrics_appends (k : nat) (h : gmap string (list fval))
    (values : list fval) (m : record) (d e mean largest : fval) :
  history_after k h ->
  h !! "reconstruction_error" = Some values ->
  (m = [("deviation_from_GUE", d); ("reconstruction_error", e);
        ("mean_change", mean); ("max_change", largest)]
   \/ exists final,
        m = [("deviation_from_GUE", d); ("reconstruction_error", e);
             ("mean_change", mean); ("max_change", largest);
             ("final_change", final)]) ->
  pipeline.store_metrics h m !! "reconstruction_error" = Some (values ++ [e]).
Proof.
  intros (_ & _ & _ & Hd & Hmean & Hmax & Hfinal) Hrec Hm.
  assert (Hstore : pipeline.store_metrics h m
                   = <["reconstruction_error" := values ++ [e]]> h).
  { destruct Hm as [-> | [final ->]]; unfold pipeline.store_metrics;
      cbn [foldl fst snd]; rewrite Hd, Hrec;
      repeat (rewrite lookup_insert_ne by discriminate;
              rewrite ?Hmean, ?Hmax, ?Hfinal);
      reflexivity. }
  rewrite Hstore. apply lookup_insert_eq.
Qed.

Lemma control_loop_constant (iterations : nat) :
  forall normalized_gaps potential_grad_fn spectral_grad_fn alpha
         metrics_history self h self' k processed e,
    pipeline.control_loop iterations normalized_gaps
      potential_grad_fn spectral_grad_fn alpha metrics_history self
    = (Ok h, self') ->
    pipeline.processed_sequence self = Some processed ->
    metrics.compute_reconstruction_error normalized_gaps processed = Ok e ->
    history_after k metrics_history ->
    metrics_history !! "reconstruction_error" = Some (replicate k e) ->
    h !! "reconstruction_error" = Some (replicate (k + iterations) e).
Proof.
  induction iterations as [|iterations IH];
    intros normalized_gaps potential_grad_fn spectral_grad_fn alpha
           metrics_history self h self' k processed e Hloop Hp He Hafter Hrec.
  - cbn [pipeline.control_loop] in Hloop. injection Hloop as <- <-.
    rewrite Nat.add_0_r. exact Hrec.
  - cbn [pipeline.control_loop] in Hloop.
    destruct (pipeline.control_step normalized_gaps potential_grad_fn
                spectral_grad_fn alpha metrics_history self)
      as [[[alpha1 metrics_history1]|e1] self1] eqn:Hstep; [| discriminate].
    apply control_step_ok in Hstep.
    destruct Hstep as (-> & processed' & history & m & Hp' & _ & Hm & ->).
    rewrite Hp in Hp'. injection Hp' as <-.
    pose proof (evaluate_pipeline_shape _ _ _ _ Hm) as Hshape.
    destruct (evaluate_pipeline_entries _ _ _ _ Hm)
      as (d & e' & mean & largest & He' & Hentries).
    rewrite He in He'. injection He' as <-.
    replace (k + S iterations)%nat with (S k + iterations)%nat by lia.
    apply (IH _ _ _ _ _ _ _ _ (S k) processed e Hloop Hp He).
    + apply store_metrics_after; assumption.
    + rewrite (store_metrics_appends k _ _ _ d e mean largest Hafter Hrec Hentries).
      f_equal. symmetry. apply replicate_S_end.
Qed.

(** X23.  The metrics do not change during a run: all the values that a
    successful [run] records under "reconstruction_error" are one and the
    same, the reconstruction error between the normalized gaps of the
    stored original sequence and the stored processed sequence. *)
Theorem run_reconstruction_error_constant (self : pipeline.SpectralPipeline)
    (n_iterations : Z)
    (potential_grad_fn spectral_grad_fn : option pipeline.gradient_fn)
    (h : gmap string (list fval)) (self' : pipeline.SpectralPipeline) :
  pipeline.run n_iterations potential_grad_fn spectral_grad_fn self
  = (Ok h, self') ->
  (1 <= n_iterations)%Z ->
  exists (original processed : list fval) (e : fval),
    pipeline.original_sequence self' = Some original
    /\ pipeline.processed_sequence self' = Some processed
    /\ metrics.compute_reconstruction_error (normalize_gaps original) processed
       = Ok e
    /\ h !! "reconstruction_error" = Some (replicate (Z.to_nat n_iterations) e).
Proof.
  intros Hrun Hn. unfold pipeline.run in Hrun.
  destruct (load (pipeline.data_source self)) as [sequence|]; [| discriminate].
  match type of Hrun with
  | context [match ?m with Ok _ => _ | Raise _ => _ end] =>
      destruct m as [processed|]
  end; [| discriminate].
  pose proof Hrun as Hloop.
  apply (control_loop_ok _ _ _ _ _ _ _ _ _ 0%nat) in Hloop;
    [| exact empty_history_after_0].
  destruct Hloop as (-> & _ & Hfirst).
  destruct Hfirst as (processed' & history & m & Hp & _ & Hm); [lia |].
  cbn in Hp. injection Hp as <-.
  destruct (evaluate_pipeline_entries _ _ _ _ Hm) as (d & e & _ & _ & He & _).
  exists sequence, processed, e.
  do 2 (split; [reflexivity |]). split; [exact He |].
  apply (control_loop_constant _ _ _ _ _ _ _ _ _ 0%nat processed e Hrun);
    [reflexivity | exact He | exact empty_history_after_0 | reflexivity].
Qed.

Lemma run_reconstruction_error_constant_witness :
  exists (h : gmap string (list fval)) (self' : pipeline.SpectralPipeline)
         (e : fval),
    pipeline.run 2 None None (pipeline.init four_points None None)
    = (Ok h, self')
    /\ h !! "reconstruction_error" = Some (replicate (Z.to_nat 2) e).
Proof.
  destruct run_four_points_succeeds as (h & self' & Hrun).
  destruct (run_reconstruction_error_constant _ _ _ _ _ _ Hrun ltac:(lia))
    as (original & processed & e & _ & _ & _ & He).
  exists h, self', e. split; [exact Hrun | exact He].
Defined.

Lemma control_loop_returns (iterations : nat) :
  forall normalized_gaps alpha metrics_history self processed,
    pipeline.processed_sequence self = Some processed ->
    pipeline.alpha_history self = [] ->
    (3 <= length processed)%nat ->
    length normalized_gaps = length processed ->
    exists h,
      pipeline.control_loop iterations normalized_gaps None None
        alpha metrics_history self
      = (Ok h, self).
Proof.
  induction iterations as [|iterations IH];
    intros normalized_gaps alpha metrics_history self processed Hp Ha Hlen Heq.
  - cbn [pipeline.control_loop]. eauto.
  - cbn [pipeline.control_loop]. unfold pipeline.control_step.
    rewrite Hp, Ha. cbn [np_array mbind result_bind].
    destruct (evaluate_pipeline_returns normalized_gaps processed Hlen Heq)
      as [m ->].
    apply (IH _ _ _ _ processed); assumption.
Qed.

(** X24.  With the raw representation and no gradient functions, a run
    over any sequence of at least four float64 points succeeds for every
    iteration count; the processed sequence is the normalized gaps
    themselves, so every recorded reconstruction error is the error of
    these gaps against themselves: one and the same value, 0.0 or NaN. *)
Theorem run_raw_reconstructs_exactly (sequence : list fval) (n_iterations : Z)
    (controller : option cal_controller.CALController) :
  (4 <= length sequence)%nat ->
  exists h self' e,
    pipeline.run n_iterations None None
      (pipeline.init {| load := Ok sequence |} None controller)
    = (Ok h, self')
    /\ pipeline.processed_sequence self' = Some (normalize_gaps sequence)
    /\ h !! "reconstruction_error"
       = Some (replicate (Z.to_nat n_iterations) e)
    /\ (e = Fin 0 \/ e = NaN).
Proof.
  intros Hlen.
  set (gaps := normalize_gaps sequence).
  assert (Hgaps : (3 <= length gaps)%nat)
    by (unfold gaps; rewrite length_normalize_gaps; lia).
  assert (Herr : exists e, metrics.compute_reconstruction_error gaps gaps = Ok e
                           /\ (e = Fin 0 \/ e = NaN)).
  { destruct (reconstruction_error_of_copy gaps) as [H|H]; eauto. }
  destruct Herr as (e & Herr & He).
  unfold pipeline.run.
  cbn [pipeline.init pipeline.data_source load pipeline.set_original_sequence
       pipeline.representation default from_option Datatypes.id
       RawRepresentation transform inverse_transform mbind result_bind
       pipeline.controller].
  fold gaps.
  match goal with
  | |- context [pipeline.control_loop ?k ?g None None ?a ?mh ?st] =>
      destruct (control_loop_returns k g a mh st gaps eq_refl eq_refl Hgaps eq_refl)
        as [h Hloop]
  end.
  rewrite Hloop. exists h. eexists. exists e. split; [reflexivity |].
  split; [reflexivity |]. split; [| exact He].
  apply (control_loop_constant _ _ _ _ _ _ _ _ _ 0%nat gaps e Hloop);
    [reflexivity | exact Herr | exact empty_history_after_0 | reflexivity].
Qed.

Lemma run_raw_reconstructs_exactly_witness :
  exists h self' e,
    pipeline.run 3 None None
      (pipeline.init {| load := Ok [Fin 1; Fin 2; Fin 4; Fin 7] |} None None)
    = (Ok h, self')
    /\ pipeline.processed_sequence self'
       = Some (normalize_gaps [Fin 1; Fin 2; Fin 4; Fin 7])
    /\ h !! "reconstruction_error" = Some (replicate (Z.to_nat 3) e)
    /\ (e = Fin 0 \/ e = NaN).
Proof.
  apply (run_raw_reconstructs_exactly [Fin 1; Fin 2; Fin 4; Fin 7] 3 None).
  simpl. lia.
Defined.

(** X25.  On a new pipeline with the raw representation, a source of
    fewer than four points makes every run of at least one iteration
    raise the insufficient-data [ValueError] in its first evaluation,
    with or without gradient functions. *)
Theorem run_needs_four_points (source : DataSource) (sequence : list fval)
    (controller : option cal_controller.CALController) (n_iterations : Z)
    (potential_grad_fn spectral_grad_fn : option pipeline.gradient_fn) :
  load source = Ok sequence -> (length sequence < 4)%nat ->
  (1 <= n_iterations)%Z ->
  fst (pipeline.run n_iterations potential_grad_fn spectral_grad_fn
         (pipeline.init source None controller))
  = Raise (ValueError "Need at least 3 gaps for S_N computation").
Proof.
  intros Hload Hlen Hn. unfold pipeline.run.
  cbn [pipeline.init pipeline.data_source]. rewrite Hload.
  cbn [pipeline.init pipeline.set_original_sequence pipeline.representation
       default from_option Datatypes.id RawRepresentation transform
       inverse_transform mbind result_bind].
  destruct (Z.to_nat n_iterations) as [|k] eqn:Hk; [lia |].
  cbn [pipeline.control_loop]. unfold pipeline.control_step.
  cbn [pipeline.init pipeline.set_original_sequence pipeline.set_controller
       pipeline.set_processed_sequence pipeline.processed_sequence
       pipeline.alpha_history np_array mbind result_bind pipeline.controller].
  unfold metrics.evaluate_pipeline.
  rewrite compute_deviation_short by (rewrite length_normalize_gaps; lia).
  reflexivity.
Qed.

Lemma run_needs_four_points_witness :
  fst (pipeline.run 1 None None (pipeline.init three_points None None))
  = Raise (ValueError "Need at least 3 gaps for S_N computation").
Proof.
  apply (run_needs_four_points three_points
           (finite [1000%R; 1001%R; 1002%R]) None 1 None None);
    [reflexivity | simpl; lia | lia].
Defined.

(** X26.  A successful [run] leaves the pipeline with the sequence that
    [load] returned as the original sequence, the result of the
    representation round trip of its normalized gaps as the processed
    sequence, the controller's velocity reset to [[0.0]], and the
    parameter history unchanged. *)
Theorem run_final_state (self : pipeline.SpectralPipeline) (n_iterations : Z)
    (potential_grad_fn spectral_grad_fn : option pipeline.gradient_fn)
    (h : gmap string (list fval)) (self' : pipeline.SpectralPipeline) :
  pipeline.run n_iterations potential_grad_fn spectral_grad_fn self
  = (Ok h, self') ->
  exists sequence processed,
    load (pipeline.data_source self) = Ok sequence
    /\ (t ← transform (pipeline.representation self) (normalize_gaps sequence);
        inverse_transform (pipeline.representation self) t) = Ok processed
    /\ pipeline.original_sequence self' = Some sequence
    /\ pipeline.processed_sequence self' = Some processed
    /\ cal_controller.velocity (pipeline.controller self') = Some [Fin 0]
    /\ pipeline.alpha_history self' = pipeline.alpha_history self.
Proof.
  unfold pipeline.run.
  destruct (load (pipeline.data_source self)) as [sequence|] eqn:Hload;
    [| discriminate].
  cbn [pipeline.set_original_sequence pipeline.representation].
  destruct (transform (pipeline.representation self) (normalize_gaps sequence)
            ≫= inverse_transform (pipeline.representation self))
    as [processed|] eqn:Hrep; [| discriminate].
  intros Hloop.
  apply (control_loop_ok _ _ _ _ _ _ _ _ _ 0%nat) in Hloop;
    [| exact empty_history_after_0].
  destruct Hloop as (-> & _ & _).
  exists sequence, processed.
  split; [reflexivity |]. split; [exact Hrep |]. repeat split; reflexivity.
Qed.

Lemma run_final_state_witness :
  exists h self' sequence processed,
    pipeline.run 2 None None (pipeline.init four_points None None)
    = (Ok h, self')
    /\ pipeline.original_sequence self' = Some sequence
    /\ pipeline.processed_sequence self' = Some processed
    /\ cal_controller.velocity (pipeline.controller self') = Some [Fin 0]
    /\ pipeline.alpha_history self' = [].
Proof.
  destruct run_four_points_succeeds as (h & self' & Hrun).
  destruct (run_final_state _ _ _ _ _ _ Hrun)
    as (sequence & processed & _ & _ & Ho & Hp & Hv & Ha).
  exists h, self', sequence, processed. auto.
Defined.

(** ** SyntheticSequence.load *)


(** X27.  The "deterministic" source ignores the random draws.  For a
    negative [n_points] it raises the [ValueError] of [np.linspace]; for
    [n_points >= 0] it returns exactly [n_points] points, none below
    1000, the first of which is 1000 and, from two points on, the last of
    which is the stop value [1000 + n_points]. *)
Theorem synthetic_deterministic (self : synthetic.SyntheticSequence)
    (gaps : list fval) :
  synthetic.sequence_type self = "deterministic" ->
  ((synthetic.n_points self < 0)%Z ->
   exists msg, synthetic.load self gaps = Raise (ValueError msg))
  /\ ((0 <= synthetic.n_points self)%Z ->
      exists points : list fval,
        synthetic.load self gaps = Ok points
        /\ length points = Z.to_nat (synthetic.n_points self)
        /\ Forall (fun p => fval_le (Fin 1000) p) points
        /\ ((1 <= synthetic.n_points self)%Z -> head points = Some (Fin 1000))
        /\ ((2 <= synthetic.n_points self)%Z ->
            last points
            = Some (fadd (Fin 1000) (of_Z (synthetic.n_points self))))).
Proof.
  intros Htype. unfold synthetic.load. rewrite Htype.
  destruct (decide ("deterministic" = "gue_like")); [discriminate |].
  destruct (decide ("deterministic" = "poisson")); [discriminate |].
  destruct (decide ("deterministic" = "deterministic")); [| contradiction].
  set (num := synthetic.n_points self). unfold np_linspace.
  split; intros Hnum.
  - destruct (Z.ltb_spec num 0) as [_|Hge]; [eauto | lia].
  - destruct (Z.ltb_spec num 0) as [Hlt|_]; [lia |].
    assert (Hd : (0 <= IZR num)%R) by (apply IZR_le; exact Hnum).
    cbn [fadd fsub fneg of_Z].
    set (delta := (1000 + IZR num + Ropp 1000)%R).
    assert (Hdelta : (0 <= delta)%R) by (unfold delta; lra).
    destruct (Z.to_nat num) as [|[|m]] eqn:Hn.
    + exists []. cbn. repeat split; [constructor | lia | lia].
    + exists [Fin 1000]. cbn [Nat.sub Nat.ltb Nat.leb seq map of_nat INR fmul fadd].
      replace (0 * delta + 1000)%R with 1000%R by lra.
      repeat split; [| lia].
      constructor; [cbn [fval_le]; lra | constructor].
    + replace (S (S m) - 1)%nat with (S m) by lia.
      cbn [Nat.ltb Nat.leb].
      assert (Hdiv : INR (S m) <> 0%R) by (apply not_0_INR; lia).
      assert (Hpos : (0 < INR (S m))%R) by (apply lt_0_INR; lia).
      unfold of_nat. rewrite fdiv_fin by exact Hdiv. cbn [fmul fadd].
      set (step := (delta / INR (S m))%R).
      assert (Hstep : (0 <= step)%R)
        by (unfold step; apply Rmult_le_pos;
            [exact Hdelta | left; apply Rinv_0_lt_compat, Hpos]).
      set (y := map (fun i => Fin (INR i * step + 1000)) (seq 0 (S (S m)))).
      exists (take (S m) y ++ [Fin (1000 + IZR num)]).
      assert (Hy : length y = S (S m))
        by (unfold y; rewrite length_map, length_seq; reflexivity).
      split; [reflexivity |].
      split; [rewrite length_app, length_take, Hy; simpl; lia |].
      split; [| split].
      * apply Forall_app. split; [| constructor; [cbn [fval_le]; lra | constructor]].
        apply Forall_take. unfold y. apply Forall_forall.
        intros p Hp. apply list_elem_of_In, in_map_iff in Hp.
        destruct Hp as (i & <- & _). cbn [fval_le].
        pose proof (pos_INR i). nra.
      * intros _. unfold y. cbn [seq map take app head INR].
        do 2 f_equal. lra.
      * intros _. apply last_snoc.
Qed.

Lemma synthetic_deterministic_witness :
  (exists msg,
      synthetic.load
        {| synthetic.n_points := -1; synthetic.sequence_type := "deterministic" |}
        []
      = Raise (ValueError msg))
  /\ exists points : list fval,
       synthetic.load
         {| synthetic.n_points := 4; synthetic.sequence_type := "deterministic" |}
         [Fin 0.5]
       = Ok points
       /\ length points = 4%nat
       /\ head points = Some (Fin 1000)
       /\ last points = Some (fadd (Fin 1000) (of_Z 4)).
Proof.
  split.
  - apply (proj1 (synthetic_deterministic
                    {| synthetic.n_points := -1;
                       synthetic.sequence_type := "deterministic" |}
                    [] eq_refl)).
    simpl. lia.
  - destruct (proj2 (synthetic_deterministic
                       {| synthetic.n_points := 4;
                          synthetic.sequence_type := "deterministic" |}
                       [Fin 0.5] eq_refl))
      as (points & Hload & Hlen & _ & Hfirst & Hlast); [simpl; lia |].
    exists points. split; [exact Hload |]. split; [exact Hlen |].
    split; [apply Hfirst | apply Hlast]; simpl; lia.
Defined.







(** ** BootstrapResampler.resample *)

Lemma In_take {A : Type} (n : nat) (l : list A) (x : A) :
  In x (take n l) -> In x l.
Proof.
  revert n. induction l as [|y l IH]; intros [|n] H; simpl in *; try contradiction.
  destruct H as [H|H]; [left; exact H | right; exact (IH _ H)].
Qed.

Lemma In_drop {A : Type} (n : nat) (l : list A) (x : A) :
  In x (drop n l) -> In x l.
Proof.
  revert n. induction l as [|y l IH]; intros [|n] H; simpl in *;
    try contradiction; try exact H.
  right. exact (IH _ H).
Qed.

Lemma length_blocks {A : Type} (sequence : list A) (block_size : nat)
    (block_indices : list nat) :
  Forall (fun idx => (idx + block_size <= length sequence)%nat) block_indices ->
  length (concat (map (fun idx => take block_size (drop idx sequence))
                      block_indices))
  = (length block_indices * block_size)%nat.
Proof.
  induction 1 as [|idx block_indices Hidx _ IH]; [reflexivity |].
  cbn [map concat length]. rewrite length_app, IH, length_take, length_drop. lia.
Qed.

Lemma n_blocks_cover (n block_size : nat) :
  (1 <= block_size)%nat ->
  (n <= bootstrap.n_blocks n block_size * block_size)%nat.
Proof.
  intros Hb. unfold bootstrap.n_blocks.
  pose proof (Nat.div_mod_eq (n + block_size - 1) block_size) as Hdm.
  pose proof (Nat.mod_upper_bound (n + block_size - 1) block_size ltac:(lia)).
  nia.
Qed.

Lemma bootstrap_sample_well_formed (sequence : list fval) (block_size : nat)
    (block_indices : list nat) :
  (1 <= block_size)%nat ->
  length block_indices = bootstrap.n_blocks (length sequence) block_size ->
  Forall (fun idx => (idx + block_size <= length sequence)%nat) block_indices ->
  length (bootstrap.bootstrap_sample sequence block_size block_indices)
  = length sequence
  /\ forall v, In v (bootstrap.bootstrap_sample sequence block_size block_indices)
               -> In v sequence.
Proof.
  intros Hb Hcount Hidx. unfold bootstrap.bootstrap_sample. split.
  - rewrite length_take, length_blocks by exact Hidx.
    rewrite Hcount. pose proof (n_blocks_cover (length sequence) block_size Hb).
    lia.
  - intros v Hv. apply In_take, in_concat in Hv.
    destruct Hv as (block & Hblock & Hv).
    apply in_map_iff in Hblock. destruct Hblock as (idx & <- & _).
    apply In_take, In_drop in Hv. exact Hv.
Qed.

Lemma default_block_size_bounds (n : nat) :
  (1 <= n)%nat -> (1 <= Nat.sqrt n <= n)%nat.
Proof.
  intros Hn. split; [| apply Nat.sqrt_le_lin].
  change 1%nat with (Nat.sqrt 1) at 1. apply Nat.sqrt_le_mono. exact Hn.
Qed.

(** X29.  When the block size in effect is between 1 and the length [n]
    of the sequence (as the default [int(sqrt(n))] is for every non-empty
    sequence) and each draw consists of [ceil(n / block_size)] start
    indices no greater than [n - block_size], [resample] returns one
    sample per draw, each of exactly [n] values, all taken from the
    sequence. *)
Theorem resample_well_formed (self : bootstrap.BootstrapResampler)
    (sequence : list fval) (draws : list (list nat)) :
  ((bootstrap.block_size self = None -> sequence <> [] ->
    (1 <= bootstrap.effective_block_size self (length sequence)
       <= length sequence)%nat)
   /\ ((1 <= bootstrap.effective_block_size self (length sequence)
          <= length sequence)%nat ->
       Forall (fun block_indices =>
                 length block_indices
                 = bootstrap.n_blocks (length sequence)
                     (bootstrap.effective_block_size self (length sequence))
                 /\ Forall (fun idx =>
                              (idx + bootstrap.effective_block_size self
                                       (length sequence)
                               <= length sequence)%nat)
                           block_indices)
              draws ->
       exists samples,
         bootstrap.resample self sequence draws = Ok samples
         /\ length samples = length draws
         /\ Forall (fun sample =>
                      length sample = length sequence
                      /\ forall v, In v sample -> In v sequence)
                   samples)).
Proof.
  split.
  - intros Hnone Hne. unfold bootstrap.effective_block_size. rewrite Hnone.
    apply default_block_size_bounds. destruct sequence; [contradiction | simpl; lia].
  - intros [Hlow Hhigh] Hdraws.
    set (bs := bootstrap.effective_block_size self (length sequence)) in *.
    exists (map (bootstrap.bootstrap_sample sequence bs) draws).
    split.
    + unfold bootstrap.resample. fold bs.
      destruct (decide (draws = [])) as [->|_]; [reflexivity |].
      destruct (Nat.eqb_spec bs 0) as [Hz|_]; [lia |].
      destruct (Nat.ltb_spec (length sequence) bs) as [Hlt|_]; [lia |].
      rewrite andb_false_r. reflexivity.
    + split; [apply length_map |].
      apply Forall_forall. intros sample Hsample.
      apply list_elem_of_In, in_map_iff in Hsample.
      destruct Hsample as (block_indices & <- & Hin).
      apply list_elem_of_In in Hin.
      rewrite Forall_forall in Hdraws.
      destruct (Hdraws _ Hin) as [Hcount Hidx].
      apply bootstrap_sample_well_formed; assumption.
Qed.

Lemma resample_well_formed_witness :
  exists samples,
    bootstrap.resample {| bootstrap.block_size := None |}
      [Fin 1; Fin 2; Fin 3; Fin 4; Fin 5] [[3; 0; 1]%nat; [2; 2; 2]%nat]
    = Ok samples
    /\ length samples = 2%nat
    /\ Forall (fun sample =>
                 length sample = 5%nat
                 /\ forall v, In v sample
                              -> In v [Fin 1; Fin 2; Fin 3; Fin 4; Fin 5])
              samples.
Proof.
  apply (proj2 (resample_well_formed {| bootstrap.block_size := None |}
                  [Fin 1; Fin 2; Fin 3; Fin 4; Fin 5]
                  [[3; 0; 1]%nat; [2; 2; 2]%nat])).
  - apply (proj1 (resample_well_formed {| bootstrap.block_size := None |}
                    [Fin 1; Fin 2; Fin 3; Fin 4; Fin 5]
                    [[3; 0; 1]%nat; [2; 2; 2]%nat]));
      [reflexivity | discriminate].
  - repeat constructor.
Defined.

Lemma n_blocks_positive (n block_size : nat) :
  (1 <= n)%nat -> (1 <= block_size)%nat ->
  (1 <= bootstrap.n_blocks n block_size)%nat.
Proof.
  intros Hn Hb. unfold bootstrap.n_blocks.
  apply (Nat.div_le_lower_bound _ block_size 1); lia.
Qed.

Lemma n_blocks_of_empty (block_size : nat) :
  (1 <= block_size)%nat -> bootstrap.n_blocks 0 block_size = 0%nat.
Proof.
  intros Hb. unfold bootstrap.n_blocks. apply Nat.div_small. lia.
Qed.

(** X30.  No sample requested gives the empty result whatever the
    sequence.  Otherwise an empty sequence with the default (or a zero)
    block size raises [ZeroDivisionError]; a non-empty sequence shorter
    than the block size raises the random generator's [ValueError]; and
    an empty sequence with a positive block size raises nothing, no block
    being drawn: every sample is empty. *)
Theorem resample_errors (self : bootstrap.BootstrapResampler)
    (sequence : list fval) (draws : list (list nat)) :
  bootstrap.resample self sequence [] = Ok []
  /\ (draws <> [] -> sequence = [] ->
      bootstrap.block_size self = None \/ bootstrap.block_size self = Some 0%nat ->
      bootstrap.resample self sequence draws
      = Raise (Exception "ZeroDivisionError"))
  /\ (forall b : nat,
        draws <> [] -> sequence <> [] ->
        bootstrap.block_size self = Some b ->
        (length sequence < b)%nat ->
        bootstrap.resample self sequence draws
        = Raise (ValueError "low >= high"))
  /\ (forall b : nat,
        sequence = [] ->
        bootstrap.block_size self = Some b -> (1 <= b)%nat ->
        bootstrap.resample self sequence draws
        = Ok (map (fun _ => []) draws)).
Proof.
  split; [reflexivity |]. split; [| split].
  - intros Hdraws -> Hblock. unfold bootstrap.resample.
    destruct (decide (draws = [])); [contradiction |].
    unfold bootstrap.effective_block_size.
    destruct Hblock as [-> | ->]; reflexivity.
  - intros b Hdraws Hseq Hblock Hlt. unfold bootstrap.resample.
    destruct (decide (draws = [])); [contradiction |].
    unfold bootstrap.effective_block_size. rewrite Hblock.
    destruct b as [|b]; [lia |].
    cbn [Nat.eqb].
    assert (Hn : (1 <= length sequence)%nat)
      by (destruct sequence; [contradiction | simpl; lia]).
    pose proof (n_blocks_positive (length sequence) (S b) Hn ltac:(lia)) as Hblocks.
    destruct (Nat.ltb_spec 0 (bootstrap.n_blocks (length sequence) (S b)))
      as [_|Hz]; [| lia].
    destruct (Nat.ltb_spec (length sequence) (S b)) as [_|Hge]; [reflexivity | lia].
  - intros b -> Hblock Hb. unfold bootstrap.resample.
    destruct (decide (draws = [])) as [->|_]; [reflexivity |].
    unfold bootstrap.effective_block_size. rewrite Hblock.
    destruct b as [|b]; [lia |].
    cbn [Nat.eqb length]. rewrite n_blocks_of_empty by lia.
    cbn [Nat.ltb Nat.leb andb]. f_equal.
Qed.

Lemma resample_errors_witness :
  bootstrap.resample {| bootstrap.block_size := None |} [] [[]]
  = Raise (Exception "ZeroDivisionError")
  /\ bootstrap.resample {| bootstrap.block_size := Some 3%nat |}
       [Fin 1; Fin 2] [[0%nat]]
     = Raise (ValueError "low >= high")
  /\ bootstrap.resample {| bootstrap.block_size := Some 3%nat |} [] [[]; []]
     = Ok [[]; []].
Proof.
  split; [| split].
  - apply (proj1 (proj2 (resample_errors {| bootstrap.block_size := None |}
                           [] [[]])));
      [discriminate | reflexivity | left; reflexivity].
  - apply (proj1 (proj2 (proj2 (resample_errors
                                  {| bootstrap.block_size := Some 3%nat |}
                                  [Fin 1; Fin 2] [[0%nat]]))) 3%nat);
      [discriminate | discriminate | reflexivity | simpl; lia].
  - apply (proj2 (proj2 (proj2 (resample_errors
                                  {| bootstrap.block_size := Some 3%nat |}
                                  [] [[]; []]))) 3%nat);
      [reflexivity | reflexivity | lia].
Defined.
